(** * Raphtory MCP server: schema aggregation and query dispatch

    A shallow embedding of [raphtory_mcp.py].  The Python program is duck
    typed, so decoded JSON is embedded as one untyped [value] and every
    operator the program applies to it ([in], [[...]], [.get], [for],
    truthiness, [sorted], [set.add]) is written out with the exceptions
    Python raises on the wrong type.  The network, the connection handle and
    the history of what was done with them are an explicit [World] threaded
    through a small state-and-exception monad. *)

From Stdlib Require Import String Ascii List ZArith Lia DecimalString.
From Stdlib Require Import Sorting.Sorted.
From Stdlib Require Import Structures.OrdersEx.
Import ListNotations.

Set Warnings "-register-all".

Local Open Scope list_scope.
Local Open Scope string_scope.

(** ** Python values *)

(** What [response.json()] can produce, which is also what the tools return.
    A dict keeps its insertion order, hence an association list; JSON numbers
    are the integers (the program never computes with them). *)
Inductive value : Type :=
| PyNone
| PyBool (b : bool)
| PyInt (z : Z)
| PyStr (s : string)
| PyList (l : list value)
| PyDict (d : list (string * value)).

(** The exceptions the program can let escape. *)
Inductive exn : Type :=
| TypeError
| AttributeError
| ValueError
| IndexError
| KeyError (key : string).

Inductive result (A : Type) : Type :=
| Ok (a : A)
| Raise (e : exn).
Arguments Ok {A} a.
Arguments Raise {A} e.

Definition rbind {A B} (r : result A) (k : A -> result B) : result B :=
  match r with
  | Ok a => k a
  | Raise e => Raise e
  end.

(** ** Strings *)

(** The double quote character, U+0022. *)
Definition dq : string :=
  String (Ascii false true false false false true false false) EmptyString.

(** The line feed, U+000A. *)
Definition nl : string :=
  String (Ascii false true false true false false false false) EmptyString.

(** A triple-quoted literal, line by line. *)
Definition text (lines : list string) : string := String.concat nl lines.

(** [needle in haystack] on two [str]. *)
Fixpoint contains (needle haystack : string) : bool :=
  if String.prefix needle haystack then true
  else match haystack with
       | EmptyString => false
       | String _ rest => contains needle rest
       end.

(** [template % args] for the conversions the program's templates use: [%s]
    takes the next argument, [%%] is a percent sign. *)
Fixpoint py_percent (template : string) (args : list string) : result string :=
  match template with
  | EmptyString =>
      match args with
      | [] => Ok EmptyString
      | _ :: _ => Raise TypeError
      end
  | String c rest =>
      if Ascii.eqb c "%" then
        match rest with
        | String d rest' =>
            if Ascii.eqb d "s" then
              match args with
              | a :: args' =>
                  rbind (py_percent rest' args') (fun out => Ok (a ++ out))
              | [] => Raise TypeError
              end
            else if Ascii.eqb d "%" then
              rbind (py_percent rest' args) (fun out => Ok (String "%" out))
            else Raise ValueError
        | EmptyString => Raise ValueError
        end
      else rbind (py_percent rest args) (fun out => Ok (String c out))
  end.

(** Keyword arguments of [str.format]. *)
Fixpoint kwarg (name : string) (kwargs : list (string * string)) : option string :=
  match kwargs with
  | [] => None
  | (k, v) :: rest => if String.eqb k name then Some v else kwarg name rest
  end.

Definition is_digit (c : ascii) : bool :=
  (48 <=? nat_of_ascii c)%nat && (nat_of_ascii c <=? 57)%nat.

Fixpoint all_digits (s : string) : bool :=
  match s with
  | EmptyString => true
  | String c rest => is_digit c && all_digits rest
  end.

(** [template.format(name=v, ...)], read left to right.  [field] is [None] in
    literal text and [Some name] inside a replacement field whose name has
    been read so far.  Doubled braces are literal braces; [{name}] is
    replaced by the keyword argument of that name, [KeyError] when there is
    none; an empty or numeric field asks for a positional argument, and none
    is ever passed: [IndexError]; an unmatched brace is a [ValueError]. *)
Fixpoint py_format_from (field : option string) (template : string)
    (kwargs : list (string * string)) : result string :=
  match field, template with
  | None, EmptyString => Ok EmptyString
  | Some _, EmptyString => Raise ValueError
  | None, String c rest =>
      if Ascii.eqb c "{" then
        match rest with
        | String d rest' =>
            if Ascii.eqb d "{" then
              rbind (py_format_from None rest' kwargs)
                    (fun out => Ok (String "{" out))
            else py_format_from (Some EmptyString) rest kwargs
        | EmptyString => Raise ValueError
        end
      else if Ascii.eqb c "}" then
        match rest with
        | String d rest' =>
            if Ascii.eqb d "}" then
              rbind (py_format_from None rest' kwargs)
                    (fun out => Ok (String "}" out))
            else Raise ValueError
        | EmptyString => Raise ValueError
        end
      else
        rbind (py_format_from None rest kwargs) (fun out => Ok (String c out))
  | Some name, String c rest =>
      if Ascii.eqb c "}" then
        if all_digits name then Raise IndexError
        else match kwarg name kwargs with
             | None => Raise (KeyError name)
             | Some v =>
                 rbind (py_format_from None rest kwargs)
                       (fun out => Ok (v ++ out))
             end
      else py_format_from (Some (name ++ String c EmptyString)) rest kwargs
  end.

Definition py_format (template : string) (kwargs : list (string * string))
  : result string :=
  py_format_from None template kwargs.

(** ** The operators the program applies to decoded JSON *)

(** [bool(v)], as [if v], [v and ...] and [v or ...] test it. *)
Definition truthy (v : value) : bool :=
  match v with
  | PyNone => false
  | PyBool b => b
  | PyInt z => negb (Z.eqb z 0)
  | PyStr s => negb (String.eqb s EmptyString)
  | PyList l => match l with [] => false | _ :: _ => true end
  | PyDict d => match d with [] => false | _ :: _ => true end
  end.

(** [a or b]. *)
Definition py_or (a b : value) : value := if truthy a then a else b.

(** [v == s] for a [str] [s]: only an equal [str] is equal to it. *)
Definition eq_str (s : string) (v : value) : bool :=
  match v with
  | PyStr t => String.eqb t s
  | _ => false
  end.

Fixpoint dict_get (k : string) (d : list (string * value)) : option value :=
  match d with
  | [] => None
  | (k', v) :: rest => if String.eqb k' k then Some v else dict_get k rest
  end.

Definition dict_has (k : string) (d : list (string * value)) : bool :=
  match dict_get k d with
  | Some _ => true
  | None => false
  end.

(** [d[k] = v]: an existing key keeps its place, a new one goes last. *)
Fixpoint dict_set (k : string) (v : value) (d : list (string * value))
  : list (string * value) :=
  match d with
  | [] => [(k, v)]
  | (k', v') :: rest =>
      if String.eqb k' k then (k, v) :: rest else (k', v') :: dict_set k v rest
  end.

(** [del d[k]] of a key that is there. *)
Fixpoint dict_del (k : string) (d : list (string * value))
  : list (string * value) :=
  match d with
  | [] => []
  | (k', v') :: rest =>
      if String.eqb k' k then dict_del k rest else (k', v') :: dict_del k rest
  end.

(** [key in v] for a [str] key: key lookup in a dict, substring search in a
    [str], element search in a list, [TypeError] on what is not a
    container. *)
Definition py_in (key : string) (v : value) : result bool :=
  match v with
  | PyDict d => Ok (dict_has key d)
  | PyStr s => Ok (contains key s)
  | PyList l => Ok (existsb (eq_str key) l)
  | PyNone | PyBool _ | PyInt _ => Raise TypeError
  end.

(** [v[key]] for a [str] key: only a dict is indexed by strings. *)
Definition py_getitem (v : value) (key : string) : result value :=
  match v with
  | PyDict d =>
      match dict_get key d with
      | Some x => Ok x
      | None => Raise (KeyError key)
      end
  | _ => Raise TypeError
  end.

(** [v.get(key, default)]: only a dict has the method. *)
Definition py_get (v : value) (key : string) (default : value) : result value :=
  match v with
  | PyDict d =>
      match dict_get key d with
      | Some x => Ok x
      | None => Ok default
      end
  | _ => Raise AttributeError
  end.

Fixpoint chars (s : string) : list value :=
  match s with
  | EmptyString => []
  | String c rest => PyStr (String c EmptyString) :: chars rest
  end.

(** What [for x in v] runs over: the elements of a list, the keys of a dict,
    the characters of a [str]. *)
Definition py_iter (v : value) : result (list value) :=
  match v with
  | PyList l => Ok l
  | PyDict d => Ok (map (fun kv => PyStr (fst kv)) d)
  | PyStr s => Ok (chars s)
  | PyNone | PyBool _ | PyInt _ => Raise TypeError
  end.

(** ** Sets and [sorted] *)

(** The values a [set] can hold: the hashable ones. *)
Inductive key : Type :=
| KNone
| KBool (b : bool)
| KInt (z : Z)
| KStr (s : string).

(** [hash(v)], whose failure is what [set.add] raises on a list or dict. *)
Definition py_hash (v : value) : result key :=
  match v with
  | PyNone => Ok KNone
  | PyBool b => Ok (KBool b)
  | PyInt z => Ok (KInt z)
  | PyStr s => Ok (KStr s)
  | PyList _ | PyDict _ => Raise TypeError
  end.

Definition key_value (k : key) : value :=
  match k with
  | KNone => PyNone
  | KBool b => PyBool b
  | KInt z => PyInt z
  | KStr s => PyStr s
  end.

(** [bool] is a subclass of [int]: [True] is [1]. *)
Definition number (k : key) : option Z :=
  match k with
  | KBool b => Some (if b then 1%Z else 0%Z)
  | KInt z => Some z
  | KNone | KStr _ => None
  end.

(** [a == b] on set elements. *)
Definition key_eqb (a b : key) : bool :=
  match a, b with
  | KNone, KNone => true
  | KStr s, KStr t => String.eqb s t
  | _, _ =>
      match number a, number b with
      | Some x, Some y => Z.eqb x y
      | _, _ => false
      end
  end.

(** [s < t] on [str]: code point order, which is byte order in UTF-8. *)
Definition str_ltb (s t : string) : bool :=
  match String_as_OT.compare s t with
  | Lt => true
  | _ => false
  end.

(** [a < b] on set elements: [str] with [str], numbers with numbers, a
    [TypeError] for every other pair. *)
Definition key_lt (a b : key) : result bool :=
  match a, b with
  | KStr s, KStr t => Ok (str_ltb s t)
  | _, _ =>
      match number a, number b with
      | Some x, Some y => Ok (Z.ltb x y)
      | _, _ => Raise TypeError
      end
  end.

(** [s.add(x)]; the list keeps the elements in the order they came in. *)
Definition set_add (x : key) (s : list key) : list key :=
  if existsb (key_eqb x) s then s else s ++ [x].

(** One step of a stable insertion sort that, like [sorted], only asks
    [<]: [x] goes before the first element that is not below it. *)
Fixpoint insert_sorted (x : key) (l : list key) : result (list key) :=
  match l with
  | [] => Ok [x]
  | y :: rest =>
      rbind (key_lt y x) (fun below =>
        if below then rbind (insert_sorted x rest) (fun r => Ok (y :: r))
        else Ok (x :: l))
  end.

(** [sorted(list(s))]. *)
Fixpoint py_sorted (l : list key) : result (list key) :=
  match l with
  | [] => Ok []
  | x :: rest => rbind (py_sorted rest) (insert_sorted x)
  end.

(** [v[k] = x] and [del v[k]] on the object [v].  The objects the program
    mutates sit inside the decoded response it returns, so the caller below
    writes the new object back in its place. *)
Definition py_setitem (v : value) (k : string) (x : value) : result value :=
  match v with
  | PyDict d => Ok (PyDict (dict_set k x d))
  | _ => Raise TypeError
  end.

Definition py_delitem (v : value) (k : string) : result value :=
  match v with
  | PyDict d =>
      if dict_has k d then Ok (PyDict (dict_del k d)) else Raise (KeyError k)
  | _ => Raise TypeError
  end.

(** ** The world: connection handle, network, host *)

(** [httpx.AsyncClient(http2=..., timeout=...)]; [hid] tells two clients
    apart. *)
Record Handle : Type := {
  hid : nat;
  http2 : bool;
  timeout : Z
}.

Record AppContext : Type := {
  graphql_client : Handle
}.

(** The [Context] the host hands to a tool: [ctx.request_context] holds the
    lifespan context while the server runs, and reading it outside raises. *)
Record Context : Type := {
  lifespan_context : option AppContext
}.

(** One call of [client.post(url, json=..., headers=...)]. *)
Record Request : Type := {
  client : Handle;
  url : string;
  json : value;
  headers : list (string * string)
}.

(** What [post] followed by [response.json()] comes to: the decoded body, or
    an [Exception] with its [str(e)]. *)
Inductive Outcome : Type :=
| Decoded (data : value)
| Failed (message : string).

Inductive Event : Type :=
| Opened (h : Handle)
| Posted (r : Request)
| Closed (h : Handle).

(** The remote end answers a request knowing everything that happened
    before; [events] is the history, oldest first; [serving] is the lifespan
    context while the server is up; [clients] counts the handles made. *)
Record World : Type := {
  remote : list Event -> Request -> Outcome;
  events : list Event;
  serving : option AppContext;
  clients : nat
}.

Definition M (A : Type) : Type := World -> result A * World.

Definition ret {A} (a : A) : M A := fun w => (Ok a, w).

Definition raise {A} (e : exn) : M A := fun w => (Raise e, w).

Definition bind {A B} (m : M A) (k : A -> M B) : M B :=
  fun w =>
    match m w with
    | (Ok a, w') => k a w'
    | (Raise e, w') => (Raise e, w')
    end.

Definition lift {A} (r : result A) : M A := fun w => (r, w).

Declare Scope py_scope.
Delimit Scope py_scope with py.
Notation "x <- m ;; k" := (bind m (fun x => k))
  (at level 61, m at next level, right associativity) : py_scope.
Notation "m ;; k" := (bind m (fun _ => k))
  (at level 61, right associativity) : py_scope.
Local Open Scope py_scope.

Definition record (e : Event) (w : World) : World :=
  {| remote := remote w; events := events w ++ [e];
     serving := serving w; clients := clients w |}.

(** [ctx.info(message)], called and not awaited: [info] is a coroutine
    function, so the call makes a coroutine that is dropped unrun, and no
    log message is sent. *)
Definition ctx_info (ctx : Context) (message : string) : M unit :=
  fun w => (Ok tt, w).

(** [mcp.get_context()]. *)
Definition mcp_get_context : M Context :=
  fun w => (Ok {| lifespan_context := serving w |}, w).

(** [ctx.request_context.lifespan_context.graphql_client]. *)
Definition ctx_graphql_client (ctx : Context) : M Handle :=
  match lifespan_context ctx with
  | Some app => ret (graphql_client app)
  | None => raise ValueError
  end.

(** [response = await client.post(...)] and [response.json()]. *)
Definition post_json (h : Handle) (endpoint : string) (body : value)
    (hdrs : list (string * string)) : M Outcome :=
  fun w =>
    let r := {| client := h; url := endpoint; json := body; headers := hdrs |} in
    (Ok (remote w (events w) r), record (Posted r) w).

(** ** The tools, resources and prompt of [raphtory_mcp.py] *)

(** [app_lifespan]: the client is made, the server runs with the context
    that holds it, and [finally] closes the client however the run ended. *)
Definition app_lifespan {A} (run : AppContext -> M A) : M A :=
  fun w =>
    let graphql_client :=
      {| hid := clients w; http2 := true; timeout := 10 |} in
    let w1 :=
      record (Opened graphql_client)
        {| remote := remote w; events := events w;
           serving := serving w; clients := S (clients w) |} in
    let (r, w2) := run {| graphql_client := graphql_client |} w1 in
    (r, record (Closed graphql_client) w2).

Definition default_endpoint : string := "http://localhost:1736/".

(** [query_db(ctx, query, endpoint=..., variables=None)]; [None] is an
    argument left out. *)
Definition query_db (ctx : Context) (query : string) (endpoint : option string)
    (variables : option value) : M value :=
  let endpoint := match endpoint with Some e => e | None => default_endpoint end in
  let variables := match variables with Some v => v | None => PyNone end in
  message <- lift (py_percent "query_db: %s" [query]) ;;
  ctx_info ctx message ;;
  graphql_client <- ctx_graphql_client ctx ;;
  let headers := [("Content-Type", "application/json")] in
  outcome <- post_json graphql_client endpoint
               (PyDict [("query", PyStr query);
                        ("variables", py_or variables (PyDict []))])
               headers ;;
  match outcome with
  | Decoded data => ret data
  | Failed e => ret (PyStr ("Error: " ++ e))
  end.

(** [await query_db(mcp.get_context(), query)], the call every resource
    makes: default endpoint, no variables. *)
Definition dispatch (query : string) : M value :=
  ctx <- mcp_get_context ;;
  query_db ctx query None None.

(** The introspection document of [get_schema]. *)
Definition get_schema_query : string := text [
    EmptyString;
    "    {";
    "      __schema {";
    "        types {";
    "          name";
    "          fields(includeDeprecated: false) {";
    "            name";
    "            description";
    "            args {";
    "              name ";
    "              defaultValue";
    "            }";
    "          }";
    "        }";
    "      }";
    "    }";
    "    "
  ].

Definition get_schema : M value :=
  let query := get_schema_query in
  result <- dispatch query ;;
  ret result.

(** The template of [verify_query] in [check_graph_exists]. *)
Definition verify_template : string := text [
    EmptyString;
    "    {";
    "      graph(path: " ++ dq ++ "%s" ++ dq ++ ") {";
    "        nodes {";
    "          list {";
    "            name";
    "          }";
    "        }";
    "      }";
    "    }"
  ].

(** [verify_query] of [check_graph_exists]. *)
Definition verify_query (graph_name : string) : result string :=
  py_percent verify_template [graph_name].

Definition check_graph_exists (graph_name : string) : M bool :=
  verify_query <- lift (verify_query graph_name) ;;
  result <- dispatch verify_query ;;
  found <- lift (py_in "errors" result) ;;
  if found then ret false else ret true.

(** The template of [schema_query] in [get_graph_schema]. *)
Definition schema_template : string := text [
    EmptyString;
    "    {";
    "      graph(path: " ++ dq ++ "%s" ++ dq ++ ") {";
    "        schema {";
    "          nodes {";
    "            properties {";
    "              key";
    "              propertyType";
    "              %s";
    "            }";
    "          }";
    "        }";
    "        edgeTypes: edges {";
    "          list {";
    "            properties {";
    "              keys";
    "              values {";
    "                value";
    "              }";
    "            }";
    "          }";
    "        }";
    "      }";
    "    }"
  ].

(** The second argument of the [%] in [get_graph_schema]:
    ["variants" if include_variants == "true" else ""]. *)
Definition variants_field (include_variants : value) : string :=
  if eq_str "true" include_variants then "variants" else EmptyString.

(** The inner loop, [for value in edge["properties"]["values"]]. *)
Fixpoint collect_values (values : list value) (unique_relationships : list key)
  : result (list key) :=
  match values with
  | [] => Ok unique_relationships
  | value :: rest =>
      rbind (py_in "value" value) (fun found =>
        if found then
          rbind (py_getitem value "value") (fun x =>
          rbind (py_hash x) (fun k =>
            collect_values rest (set_add k unique_relationships)))
        else collect_values rest unique_relationships)
  end.

(** The outer loop, [for edge in edges]. *)
Fixpoint collect_edges (edges : list value) (unique_relationships : list key)
  : result (list key) :=
  match edges with
  | [] => Ok unique_relationships
  | edge :: rest =>
      rbind (py_in "properties" edge) (fun has_properties =>
      rbind (if has_properties
             then rbind (py_getitem edge "properties") (py_in "values")
             else Ok false) (fun has_values =>
        if has_values then
          rbind (py_getitem edge "properties") (fun properties =>
          rbind (py_getitem properties "values") (fun values =>
          rbind (py_iter values) (fun values =>
          rbind (collect_values values unique_relationships)
                (collect_edges rest))))
        else collect_edges rest unique_relationships))
  end.

(** Puts a mutated object back where the response holds it. *)
Definition stored (k : string) (x : value) (holder : value) : value :=
  match holder with
  | PyDict d => PyDict (dict_set k x d)
  | _ => holder
  end.

(** Lines 133 to 151 of [get_graph_schema]: what is returned for the
    dispatcher's [schema_result]. *)
Definition aggregate (schema_result : value) : result value :=
  match schema_result with
  | PyDict top =>
      match dict_get "data" top with
      | Some data =>
          if truthy data then
            rbind (py_get data "graph" (PyDict [])) (fun graph_data =>
              if truthy graph_data then
                rbind (py_in "edgeTypes" graph_data) (fun found =>
                  if found then
                    rbind (py_getitem graph_data "edgeTypes") (fun edge_types =>
                    rbind (py_get edge_types "list" (PyList [])) (fun edges =>
                    rbind (py_iter edges) (fun edges =>
                    rbind (collect_edges edges []) (fun unique_relationships =>
                    rbind (py_sorted unique_relationships) (fun relationships =>
                    rbind (py_setitem graph_data "relationships"
                             (PyList (map key_value relationships)))
                          (fun graph_data =>
                    rbind (py_delitem graph_data "edgeTypes") (fun graph_data =>
                      Ok (stored "data" (stored "graph" graph_data data)
                                 schema_result))))))))
                  else Ok schema_result)
              else Ok schema_result)
          else Ok schema_result
      | None => Ok schema_result
      end
  | _ => Ok schema_result
  end.

(** The object returned for a graph that does not exist. *)
Definition missing_graph (graph_name : string) : value :=
  PyDict [("errors",
           PyList [PyDict [("message",
                            PyStr ("Graph " ++ graph_name ++ " does not exist"))]])].

(** [schema_query] of [get_graph_schema]. *)
Definition schema_query (graph_name : string) (include_variants : value)
  : result string :=
  py_percent schema_template [graph_name; variants_field include_variants].

Definition get_graph_schema (graph_name : string) (include_variants : value)
  : M value :=
  exists_ <- check_graph_exists graph_name ;;
  if negb exists_ then ret (missing_graph graph_name)
  else
    schema_query <- lift (schema_query graph_name include_variants) ;;
    schema_result <- dispatch schema_query ;;
    lift (aggregate schema_result).

(** The template of [raphtory_prompt]. *)
Definition prompt_template : string := text [
    "You are an expert at writing GraphQL queries. You have access to a GraphQL database through the query_db tool.";
    "    ";
    "Before writing any queries, you should examine the schema using the schema://main resource to understand the available types, fields and arguments.";
    EmptyString;
    "When a user asks a question, you should:";
    "1. First check if you need specific graph schema details by using the schema://graph/{graphName} resource to understand:";
    "   - Available node types and their properties (including property variants if needed)";
    "   - Edge types and their properties";
    "   - Relationships between nodes";
    "2. Analyze the overall database schema using schema://main to identify other relevant types and fields";
    "3. Construct an appropriate GraphQL query using proper syntax";
    "4. Use the query_db tool to execute the query";
    "5. Format and explain the results in a helpful way";
    EmptyString;
    "The user's request is: {message}";
    EmptyString;
    "Please write a valid GraphQL query to answer their question."
  ].

Definition raphtory_prompt (message : string) : result string :=
  py_format prompt_template [("message", message)].


(** ** The tool host *)

(** What the agent can ask of the server. *)
Inductive Call : Type :=
| CallQueryDb (query : string) (endpoint : option string)
              (variables : option value)
| CallGetSchema
| CallCheckGraphExists (graph_name : string)
| CallGetGraphSchema (graph_name : string) (include_variants : value)
| CallPrompt (message : string).

(** The host runs the operation and sends whatever comes out, a value or
    the exception it caught, back to the agent; the run goes on. *)
Definition answer {A} (m : M A) : M unit :=
  fun w => (Ok tt, snd (m w)).

Definition handle (c : Call) : M unit :=
  match c with
  | CallQueryDb query endpoint variables =>
      answer (ctx <- mcp_get_context ;; query_db ctx query endpoint variables)
  | CallGetSchema => answer get_schema
  | CallCheckGraphExists graph_name => answer (check_graph_exists graph_name)
  | CallGetGraphSchema graph_name include_variants =>
      answer (get_graph_schema graph_name include_variants)
  | CallPrompt message => answer (lift (raphtory_prompt message))
  end.

Fixpoint serve (calls : list Call) : M unit :=
  match calls with
  | [] => ret tt
  | c :: rest => handle c ;; serve rest
  end.

(** The context yielded by the lifespan is the one every request sees. *)
Definition install (app : AppContext) : M unit :=
  fun w =>
    (Ok tt, {| remote := remote w; events := events w;
               serving := Some app; clients := clients w |}).

(** One run of the server, [FastMCP("Raphtory MCP", lifespan=app_lifespan)]:
    the lifespan is entered once, the calls are served inside it, and the
    run ends normally ([crash = None]) or with an exception. *)
Definition run_server (calls : list Call) (crash : option exn) : M unit :=
  app_lifespan (fun app =>
    install app ;;
    serve calls ;;
    match crash with
    | None => ret tt
    | Some e => raise e
    end).

(** ** Stating the claims *)

(** The response dispatched for the existence check of a graph. *)
Definition probe (graph_name : string) : M value :=
  verify_query <- lift (verify_query graph_name) ;;
  dispatch verify_query.

(** The response dispatched for the schema query of a graph. *)
Definition schema_response (graph_name : string) (include_variants : value)
  : M value :=
  schema_query <- lift (schema_query graph_name include_variants) ;;
  dispatch schema_query.

(** The request [query_db] hands to the client. *)
Definition wire_request (h : Handle) (query : string)
    (endpoint : option string) (variables : option value) : Request :=
  {| client := h;
     url := match endpoint with Some e => e | None => default_endpoint end;
     json := PyDict [("query", PyStr query);
                     ("variables",
                      py_or (match variables with Some v => v | None => PyNone end)
                            (PyDict []))];
     headers := [("Content-Type", "application/json")] |}.

(** The number of requests that went over the wire. *)
Definition posts (history : list Event) : nat :=
  List.length (filter (fun e => match e with Posted _ => true | _ => false end)
                      history).

(** A remote end that gives its answers in turn, one per request. *)
Definition scripted (answers : list Outcome) : list Event -> Request -> Outcome :=
  fun history _ => nth (posts history) answers (Failed "connection closed").

(** A server that is up, with one client, talking to [scripted answers]. *)
Definition the_client : Handle := {| hid := 0; http2 := true; timeout := 10 |}.

Definition up (answers : list Outcome) : World :=
  {| remote := scripted answers; events := [];
     serving := Some {| graphql_client := the_client |}; clients := 1 |}.

(** A response with both [data] and [errors]. *)
Definition partial_failure : list (string * value) :=
  [("data", PyDict [("graph", PyNone)]);
   ("errors", PyList [PyDict [("message", PyStr "Graph not found")]])].

(** [v.k] in the JSON sense: the member [k] of an object. *)
Definition field (k : string) (v : value) : option value :=
  match v with
  | PyDict d => dict_get k d
  | _ => None
  end.

(** A response without [data.graph.edgeTypes] that the code takes as such:
    [data] is missing or falsy (also when the response is no object), or
    the object [data] has no [graph] or a falsy one, or [graph] is an
    object without the key [edgeTypes], a string without that text, or an
    array without that element. *)
Inductive lacks_edge_types (response : value) : Prop :=
| no_data :
    field "data" response = None -> lacks_edge_types response
| null_data (data : value) :
    field "data" response = Some data -> truthy data = false ->
    lacks_edge_types response
| no_graph (data : list (string * value)) :
    field "data" response = Some (PyDict data) ->
    dict_get "graph" data = None ->
    lacks_edge_types response
| empty_graph (data : list (string * value)) (graph : value) :
    field "data" response = Some (PyDict data) ->
    dict_get "graph" data = Some graph -> truthy graph = false ->
    lacks_edge_types response
| no_edge_types (data graph : list (string * value)) :
    field "data" response = Some (PyDict data) ->
    dict_get "graph" data = Some (PyDict graph) ->
    dict_get "edgeTypes" graph = None ->
    lacks_edge_types response
| text_graph (data : list (string * value)) (graph : string) :
    field "data" response = Some (PyDict data) ->
    dict_get "graph" data = Some (PyStr graph) ->
    contains "edgeTypes" graph = false ->
    lacks_edge_types response
| array_graph (data : list (string * value)) (graph : list value) :
    field "data" response = Some (PyDict data) ->
    dict_get "graph" data = Some (PyList graph) ->
    existsb (eq_str "edgeTypes") graph = false ->
    lacks_edge_types response.

(** The graph is there; its schema comes back without the edge list. *)
Definition graph_found : value :=
  PyDict [("data", PyDict [("graph", PyDict [("nodes", PyDict [("list", PyList [])])])])].

Definition schema_only : value :=
  PyDict [("data", PyDict [("graph", PyDict [("schema", PyDict [("nodes", PyList [])])])])].



(** An edge as the schema query asks for it: the property names and, in
    [values], one [{value: ...}] per property, here with [str] values. *)
Record EdgeBag : Type := {
  bag_keys : list string;
  bag_values : list string
}.

Definition value_json (s : string) : value := PyDict [("value", PyStr s)].

Definition edge_json (e : EdgeBag) : value :=
  PyDict [("properties",
           PyDict [("keys", PyList (map PyStr (bag_keys e)));
                   ("values", PyList (map value_json (bag_values e)))])].



(** The response of the example: two edges, with values [knows, knows] and
    [likes]. *)
Definition two_edges : list EdgeBag :=
  [{| bag_keys := ["type"; "since"]; bag_values := ["knows"; "knows"] |};
   {| bag_keys := ["type"]; bag_values := ["likes"] |}].

Definition two_edges_graph : list (string * value) :=
  [("schema", PyDict [("nodes", PyList [])]);
   ("edgeTypes", PyDict [("list", PyList (map edge_json two_edges))])].

Definition two_edges_response : list (string * value) :=
  [("data", PyDict [("graph", PyDict two_edges_graph)])].

Definition two_edges_world : World :=
  up [Decoded graph_found; Decoded (PyDict two_edges_response)].

(** An edge with a number and a string among its property values. *)
Definition mixed_edge : value :=
  PyDict [("properties",
           PyDict [("keys", PyList [PyStr "weight"; PyStr "type"]);
                   ("values", PyList [PyDict [("value", PyInt 3)];
                                      value_json "knows"])])].

Definition mixed_response : value :=
  PyDict [("data",
           PyDict [("graph",
                    PyDict [("edgeTypes",
                             PyDict [("list", PyList [mixed_edge])])])])].

(** What a request may add to the history: a post through the client [h];
    never a client made or closed. *)
Definition through (h : Handle) (e : Event) : Prop :=
  match e with
  | Posted r => client r = h
  | Opened _ | Closed _ => False
  end.

Definition keeps (h : Handle) (w w' : World) : Prop :=
  serving w' = serving w /\ clients w' = clients w /\
  exists added, events w' = (events w ++ added)%list /\ Forall (through h) added.

(** An operation that, run while the server holds [h], only works
    through [h]. *)
Definition calm (h : Handle) {A} (m : M A) : Prop :=
  forall w, serving w = Some {| graphql_client := h |} -> keeps h w (snd (m w)).

(** The world in which the calls are served: the client is made, entered
    in the history and held by the lifespan context. *)
Definition started (w : World) : World :=
  {| remote := remote w;
     events := events w ++ [Opened {| hid := clients w; http2 := true; timeout := 10 |}];
     serving := Some {| graphql_client :=
                          {| hid := clients w; http2 := true; timeout := 10 |} |};
     clients := S (clients w) |}.

(** What a resource may add to the history: a post through the client [h]
    to the default endpoint, with empty variables and the JSON content
    type. *)
Definition default_post (h : Handle) (e : Event) : Prop :=
  match e with
  | Posted r =>
      client r = h /\ url r = "http://localhost:1736/" /\
      field "variables" (json r) = Some (PyDict []) /\
      headers r = [("Content-Type", "application/json")]
  | Opened _ | Closed _ => False
  end.

(** The calls that are resources or the prompt: all but the tool. *)
Definition is_resource (c : Call) : bool :=
  match c with
  | CallQueryDb _ _ _ => false
  | _ => true
  end.

(** The response of the example with an [errors] member beside [data], and
    what the aggregation makes of it. *)
Definition two_edges_with_errors : value :=
  PyDict [("errors", PyList [PyDict [("message", PyStr "partial result")]]);
          ("data", PyDict [("graph", PyDict two_edges_graph);
                           ("version", PyStr "0.16")])].

Definition two_edges_aggregated : value :=
  PyDict [("errors", PyList [PyDict [("message", PyStr "partial result")]]);
          ("data",
           PyDict [("graph",
                    PyDict [("schema", PyDict [("nodes", PyList [])]);
                            ("relationships",
                             PyList [PyStr "knows"; PyStr "likes"])]);
                   ("version", PyStr "0.16")])].

(** An edge the loop passes over: an object without [properties], or whose
    [properties] is an object without [values]. *)
Definition skipped (edge : value) : Prop :=
  exists d,
    edge = PyDict d /\
    (dict_get "properties" d = None \/
     exists p, dict_get "properties" d = Some (PyDict p) /\
               dict_get "values" p = None).

(** Edges whose property values are integers. *)
Record NumberBag : Type := {
  number_keys : list string;
  number_values : list Z
}.

Definition number_json (z : Z) : value := PyDict [("value", PyInt z)].

Definition number_edge_json (e : NumberBag) : value :=
  PyDict [("properties",
           PyDict [("keys", PyList (map PyStr (number_keys e)));
                   ("values", PyList (map number_json (number_values e)))])].




(** Two edges with the values [10, 2] and [2, 9]. *)
Definition number_edges : list NumberBag :=
  [{| number_keys := ["weight"; "rank"]; number_values := [10%Z; 2%Z] |};
   {| number_keys := ["weight"; "rank"]; number_values := [2%Z; 9%Z] |}].

Definition number_graph : list (string * value) :=
  [("schema", PyDict [("nodes", PyList [])]);
   ("edgeTypes", PyDict [("list", PyList (map number_edge_json number_edges))])].

Definition number_response : list (string * value) :=
  [("data", PyDict [("graph", PyDict number_graph)])].

(** A graph whose edges carry no property values. *)
Definition bare_edges : list value :=
  [PyDict [("src", PyStr "a")];
   PyDict [("properties", PyDict [("keys", PyList [])])]].



(** Edges whose property values are any scalars: [null], booleans,
    integers, strings. *)
Record ScalarBag : Type := {
  scalar_keys : list string;
  scalar_values : list key
}.

Definition scalar_json (k : key) : value := PyDict [("value", key_value k)].

Definition scalar_edge_json (e : ScalarBag) : value :=
  PyDict [("properties",
           PyDict [("keys", PyList (map PyStr (scalar_keys e)));
                   ("values", PyList (map scalar_json (scalar_values e)))])].

Definition add_scalars (seen : list key) (values : list key) : list key :=
  fold_left (fun acc k => set_add k acc) values seen.

Definition add_scalar_edges (seen : list key) (edges : list ScalarBag)
  : list key :=
  fold_left (fun acc e => add_scalars acc (scalar_values e)) edges seen.

Definition is_str (k : key) : bool :=
  match k with
  | KStr _ => true
  | _ => false
  end.

Definition is_number (k : key) : bool :=
  match k with
  | KBool _ | KInt _ => true
  | _ => false
  end.

(** A list all of strings, or all of numbers. *)
Definition uniform (l : list key) : Prop :=
  (forall k, In k l -> is_str k = true) \/
  (forall k, In k l -> is_number k = true).

(** The edge of [mixed_edge] as a [ScalarBag], and its response. *)
Definition mixed_bag : ScalarBag :=
  {| scalar_keys := ["weight"; "type"];
     scalar_values := [KInt 3; KStr "knows"] |}.

(** Whether a response has a top-level [errors] member. *)
Definition has_errors_key (response : value) : bool :=
  match field "errors" response with
  | Some _ => true
  | None => false
  end.

(** [response.data.graph.edgeTypes] in the JSON sense. *)
Definition edge_types_of (response : value) : option value :=
  match field "data" response with
  | Some data =>
      match field "graph" data with
      | Some graph => field "edgeTypes" graph
      | None => None
      end
  | None => None
  end.

(** A response whose [data] is a number. *)
Definition number_data : value := PyDict [("data", PyInt 5)].




(** ** Basic facts *)

Lemma append_empty (s : string) : s ++ EmptyString = s.
Proof.
  induction s as [|c s IH]; simpl; [reflexivity | now rewrite IH].
Qed.

(** The argument of [ctx.info] is built without failure. *)
Lemma log_line (query : string) :
  py_percent "query_db: %s" [query] = Ok ("query_db: " ++ query).
Proof.
  simpl. now rewrite append_empty.
Qed.

(** The two templates have the right number of [%s]: building a query
    never fails. *)
Lemma verify_query_total (graph_name : string) :
  exists q, verify_query graph_name = Ok q.
Proof.
  eexists. unfold verify_query. cbv. reflexivity.
Qed.

Lemma schema_query_total (graph_name : string) (include_variants : value) :
  exists q, schema_query graph_name include_variants = Ok q.
Proof.
  unfold schema_query, variants_field.
  destruct (eq_str "true" include_variants); eexists; cbv; reflexivity.
Qed.

Lemma query_db_runs (w : World) (ctx : Context) (app : AppContext)
    (query : string) (endpoint : option string) (variables : option value) :
  lifespan_context ctx = Some app ->
  let r := wire_request (graphql_client app) query endpoint variables in
  query_db ctx query endpoint variables w =
  (Ok (match remote w (events w) r with
       | Decoded data => data
       | Failed e => PyStr ("Error: " ++ e)
       end),
   record (Posted r) w).
Proof.
  intros Hctx r. unfold query_db, bind, lift.
  rewrite log_line. unfold ctx_info, ctx_graphql_client. rewrite Hctx.
  subst r. unfold ret, post_json, wire_request. simpl.
  match goal with
  | |- context [remote w ?h ?q] => destruct (remote w h q)
  end; reflexivity.
Qed.

(** ** The variants toggle of the schema query *)

(** The slot of the node-property section holds [variants] for exactly
    one argument, the [str] ["true"]. *)
Lemma variants_field_only_str_true (include_variants : value) :
  variants_field include_variants = "variants" <->
  include_variants = PyStr "true".
Proof.
  unfold variants_field, eq_str. split.
  - destruct include_variants; try discriminate.
    destruct (String.eqb_spec s "true"); [now subst | discriminate].
  - intros ->. reflexivity.
Qed.

Lemma schema_query_str_true :
  exists q, schema_query "g" (PyStr "true") = Ok q /\
            contains "variants" q = true.
Proof.
  eexists. split; [vm_compute; reflexivity | vm_compute; reflexivity].
Qed.

Lemma schema_query_false_or_absent (graph_name : string) :
  variants_field (PyBool false) = EmptyString /\
  exists q, schema_query "g" (PyBool false) = Ok q /\
            contains "variants" q = false.
Proof.
  split; [reflexivity |].
  eexists. split; vm_compute; reflexivity.
Qed.

(** C1, at the boolean [True] the signature [include_variants: bool] asks
    for: the comparison [include_variants == "true"] is false, the slot
    stays empty, and the query built is the one built for [False], with no
    [variants] in it. *)
Theorem schema_query_bool_true_omits_variants :
  variants_field (PyBool true) = EmptyString /\
  (forall graph_name,
     schema_query graph_name (PyBool true) =
     schema_query graph_name (PyBool false)) /\
  exists q, schema_query "g" (PyBool true) = Ok q /\
            contains "variants" q = false.
Proof.
  split; [reflexivity |]. split; [reflexivity |].
  eexists. split; vm_compute; reflexivity.
Qed.

(** ** The prompt *)

(** C2, for every message: [str.format] meets the replacement field
    [{graphName}] of the template before [{message}], finds no such keyword
    argument, and [raphtory_prompt] raises [KeyError] instead of returning
    the text. *)
Theorem raphtory_prompt_raises (message : string) :
  raphtory_prompt message = Raise (KeyError "graphName").
Proof.
  reflexivity.
Qed.

(** ** The dispatcher *)

(** C6: when the round trip or the decoding of the body raises an exception
    with message [m], [query_db] returns the string ["Error: " ++ m]; it
    returns, and raises nothing. *)
Theorem query_db_transport_error (w : World) (ctx : Context) (app : AppContext)
    (query : string) (endpoint : option string) (variables : option value)
    (m : string) :
  lifespan_context ctx = Some app ->
  remote w (events w)
         (wire_request (graphql_client app) query endpoint variables)
  = Failed m ->
  fst (query_db ctx query endpoint variables w) = Ok (PyStr ("Error: " ++ m)).
Proof.
  intros Hctx Hfail.
  rewrite (query_db_runs w ctx app query endpoint variables Hctx).
  simpl. simpl in Hfail. now rewrite Hfail.
Qed.

Lemma query_db_transport_error_witness :
  remote (up [Failed "All connection attempts failed"])
         (events (up [Failed "All connection attempts failed"]))
         (wire_request the_client "{ graphs { name } }" None None)
  = Failed "All connection attempts failed" /\
  fst (query_db {| lifespan_context := Some {| graphql_client := the_client |} |}
         "{ graphs { name } }" None None
         (up [Failed "All connection attempts failed"]))
  = Ok (PyStr "Error: All connection attempts failed").
Proof.
  split; [reflexivity |].
  exact (query_db_transport_error
           (up [Failed "All connection attempts failed"])
           {| lifespan_context := Some {| graphql_client := the_client |} |}
           {| graphql_client := the_client |}
           "{ graphs { name } }" None None "All connection attempts failed"
           eq_refl eq_refl).
Defined.

(** C8: with [variables] left out or empty, [query_db] posts one request
    through the client of the context, to [endpoint]
    ([http://localhost:1736/] when left out), with the body
    [{query, variables: {}}] and the header
    [Content-Type: application/json]; it adds nothing else to the
    history. *)
Theorem query_db_default_variables (w : World) (ctx : Context)
    (app : AppContext) (query : string) (endpoint : option string)
    (variables : option value) :
  lifespan_context ctx = Some app ->
  variables = None \/ variables = Some (PyDict []) ->
  events (snd (query_db ctx query endpoint variables w)) =
  (events w ++
    [Posted {| client := graphql_client app;
               url := match endpoint with
                      | Some e => e
                      | None => "http://localhost:1736/"
                      end;
               json := PyDict [("query", PyStr query);
                               ("variables", PyDict [])];
               headers := [("Content-Type", "application/json")] |}])%list.
Proof.
  intros Hctx Hvars.
  rewrite (query_db_runs w ctx app query endpoint variables Hctx).
  simpl. destruct Hvars as [-> | ->]; reflexivity.
Qed.

Lemma query_db_default_variables_witness :
  events (snd (query_db
                 {| lifespan_context := Some {| graphql_client := the_client |} |}
                 "{ graphs { name } }" None None (up []))) =
  [Posted {| client := the_client;
             url := "http://localhost:1736/";
             json := PyDict [("query", PyStr "{ graphs { name } }");
                             ("variables", PyDict [])];
             headers := [("Content-Type", "application/json")] |}].
Proof.
  exact (query_db_default_variables (up [])
           {| lifespan_context := Some {| graphql_client := the_client |} |}
           {| graphql_client := the_client |}
           "{ graphs { name } }" None None eq_refl (or_introl eq_refl)).
Defined.

(** ** The existence check *)

(** [check_graph_exists] in terms of the response it gets. *)
Lemma check_graph_exists_probe (graph_name : string) (w : World) :
  check_graph_exists graph_name w =
  match probe graph_name w with
  | (Ok result, w') =>
      match py_in "errors" result with
      | Ok found => (Ok (negb found), w')
      | Raise e => (Raise e, w')
      end
  | (Raise e, w') => (Raise e, w')
  end.
Proof.
  unfold check_graph_exists, probe, bind, lift.
  destruct (verify_query graph_name) as [q | e]; [| reflexivity].
  destruct (dispatch q w) as [[result | e] w']; [| reflexivity].
  destruct (py_in "errors" result) as [[|] | e]; reflexivity.
Qed.

(** While the server is up the existence check does get a response. *)
Lemma probe_runs (graph_name : string) (w : World) (app : AppContext) :
  serving w = Some app ->
  exists result w', probe graph_name w = (Ok result, w').
Proof.
  intros Hup. unfold probe, bind, lift.
  destruct (verify_query_total graph_name) as [q ->].
  unfold dispatch, bind, mcp_get_context.
  rewrite (query_db_runs w {| lifespan_context := serving w |} app q None None Hup).
  eauto.
Qed.

(** C3, amended: when the response dispatched for the check is a structured
    object, [check_graph_exists] returns [False] if the object has an
    [errors] key, whatever else it has, and [True] if it has none. *)
Theorem check_graph_exists_errors_key (graph_name : string) (w w' : World)
    (response : list (string * value)) :
  probe graph_name w = (Ok (PyDict response), w') ->
  check_graph_exists graph_name w =
  (Ok (negb (dict_has "errors" response)), w').
Proof.
  intros Hprobe. rewrite check_graph_exists_probe, Hprobe. reflexivity.
Qed.

Lemma check_graph_exists_errors_key_witness :
  check_graph_exists "g" (up [Decoded (PyDict partial_failure)]) =
  (Ok false, snd (probe "g" (up [Decoded (PyDict partial_failure)]))).
Proof.
  exact (check_graph_exists_errors_key "g"
           (up [Decoded (PyDict partial_failure)])
           (snd (probe "g" (up [Decoded (PyDict partial_failure)])))
           partial_failure eq_refl).
Defined.

(** C3 as it stands does not hold.  The response to a failed round trip is
    a string: it has no [errors] key, and yet the check returns [False]
    when the message holds that word. *)
Lemma check_graph_exists_errors_key_counterexample :
  ~ (forall (graph_name : string) (w w' : World) (response : value),
       probe graph_name w = (Ok response, w') ->
       check_graph_exists graph_name w =
       (Ok (negb (has_errors_key response)), w')).
Proof.
  intros H.
  specialize (H "g" (up [Failed "too many errors"])
                (snd (probe "g" (up [Failed "too many errors"])))
                (PyStr "Error: too many errors") eq_refl).
  apply (f_equal fst) in H. vm_compute in H. discriminate H.
Qed.

(** The prefix that [query_db] puts before the message has no [e] in it, so
    a match of [errors] starts in the message. *)
Lemma contains_errors_after_prefix (m : string) :
  contains "errors" ("Error: " ++ m) = contains "errors" m.
Proof.
  reflexivity.
Qed.

(** C10: when the response dispatched for the check is the string
    [query_db] makes of a transport failure with message [m], the test
    ["errors" in result] is a substring search: [check_graph_exists] returns
    [True] when [m] does not contain [errors] and [False] when it does. *)
Theorem check_graph_exists_transport_error (graph_name : string)
    (w w' : World) (m : string) :
  probe graph_name w = (Ok (PyStr ("Error: " ++ m)), w') ->
  check_graph_exists graph_name w = (Ok (negb (contains "errors" m)), w').
Proof.
  intros Hprobe. rewrite check_graph_exists_probe, Hprobe.
  cbn [py_in]. now rewrite contains_errors_after_prefix.
Qed.

Lemma check_graph_exists_transport_error_witness :
  check_graph_exists "g" (up [Failed "All connection attempts failed"]) =
  (Ok true, snd (probe "g" (up [Failed "All connection attempts failed"]))).
Proof.
  exact (check_graph_exists_transport_error "g"
           (up [Failed "All connection attempts failed"])
           (snd (probe "g" (up [Failed "All connection attempts failed"])))
           "All connection attempts failed" eq_refl).
Defined.

(** The other side of C10, on a failure whose message has the word in it. *)
Example transport_error_reported_missing :
  fst (check_graph_exists "g" (up [Failed "too many errors"])) = Ok false.
Proof.
  reflexivity.
Qed.

(** ** The schema aggregator *)

(** C5: when [check_graph_exists] returns [False], [get_graph_schema]
    returns the object [{errors: [{message: "Graph <name> does not exist"}]}]
    and leaves the world as the check left it: the schema query is not
    dispatched. *)
Theorem get_graph_schema_missing_graph (graph_name : string)
    (include_variants : value) (w w' : World) :
  check_graph_exists graph_name w = (Ok false, w') ->
  get_graph_schema graph_name include_variants w =
  (Ok (PyDict
         [("errors",
           PyList
             [PyDict
                [("message",
                  PyStr ("Graph " ++ graph_name ++ " does not exist"))]])]),
   w').
Proof.
  intros Hcheck. unfold get_graph_schema, bind. rewrite Hcheck. reflexivity.
Qed.

Lemma get_graph_schema_missing_graph_witness :
  get_graph_schema "g" (PyBool false) (up [Decoded (PyDict partial_failure)]) =
  (Ok (PyDict
         [("errors",
           PyList [PyDict [("message", PyStr "Graph g does not exist")]])]),
   snd (check_graph_exists "g" (up [Decoded (PyDict partial_failure)]))).
Proof.
  exact (get_graph_schema_missing_graph "g" (PyBool false)
           (up [Decoded (PyDict partial_failure)])
           (snd (check_graph_exists "g" (up [Decoded (PyDict partial_failure)])))
           eq_refl).
Defined.

(** Only the existence check went over the wire. *)
Example missing_graph_posts_once :
  posts (events (snd (get_graph_schema "g" (PyBool false)
                        (up [Decoded (PyDict partial_failure)])))) = 1.
Proof.
  reflexivity.
Qed.

(** [get_graph_schema] on a graph that exists: the response of the schema
    query goes through [aggregate]. *)
Lemma get_graph_schema_aggregate (graph_name : string)
    (include_variants : value) (w w1 w2 : World) (response : value) :
  check_graph_exists graph_name w = (Ok true, w1) ->
  schema_response graph_name include_variants w1 = (Ok response, w2) ->
  get_graph_schema graph_name include_variants w = (aggregate response, w2).
Proof.
  intros Hcheck Hresp. unfold get_graph_schema, bind. rewrite Hcheck.
  cbn [negb]. unfold schema_response, bind, lift in Hresp. unfold lift at 1.
  destruct (schema_query graph_name include_variants) as [q | e];
    [| discriminate].
  rewrite Hresp. reflexivity.
Qed.

Lemma aggregate_unmodified (response : value) :
  lacks_edge_types response -> aggregate response = Ok response.
Proof.
  intros H. unfold aggregate.
  destruct response as [| b | z | s | l | top]; try reflexivity.
  destruct H as [Hd | data Hd Ht | data Hd Hg | data graph Hd Hg Ht
                 | data graph Hd Hg He | data graph Hd Hg He
                 | data graph Hd Hg He]; simpl in Hd; rewrite Hd.
  - reflexivity.
  - now rewrite Ht.
  - destruct (truthy (PyDict data)); [| reflexivity].
    simpl. now rewrite Hg.
  - destruct (truthy (PyDict data)); [| reflexivity].
    simpl. rewrite Hg. simpl. now rewrite Ht.
  - destruct (truthy (PyDict data)); [| reflexivity].
    simpl. rewrite Hg. simpl.
    destruct graph; [reflexivity |].
    cbn [truthy py_in rbind]. unfold dict_has. now rewrite He.
  - destruct (truthy (PyDict data)); [| reflexivity].
    cbn [py_get]. rewrite Hg. cbn [rbind].
    destruct (truthy (PyStr graph)); [| reflexivity].
    cbn [py_in rbind]. now rewrite He.
  - destruct (truthy (PyDict data)); [| reflexivity].
    cbn [py_get]. rewrite Hg. cbn [rbind].
    destruct (truthy (PyList graph)); [| reflexivity].
    cbn [py_in rbind]. now rewrite He.
Qed.

(** C7, amended: when the response dispatched for the schema query is no
    object, or has no [data] or a falsy one, or its [data] is an object with
    no [graph] or a falsy one, or its [graph] is an object without
    [edgeTypes] (or a string or array that does not hold it),
    [get_graph_schema] returns it as it came: nothing added, nothing
    removed. *)
Theorem get_graph_schema_unmodified (graph_name : string)
    (include_variants : value) (w w1 w2 : World) (response : value) :
  check_graph_exists graph_name w = (Ok true, w1) ->
  schema_response graph_name include_variants w1 = (Ok response, w2) ->
  lacks_edge_types response ->
  get_graph_schema graph_name include_variants w = (Ok response, w2).
Proof.
  intros Hcheck Hresp Hlacks.
  rewrite (get_graph_schema_aggregate _ _ _ _ _ _ Hcheck Hresp).
  now rewrite (aggregate_unmodified _ Hlacks).
Qed.

Lemma get_graph_schema_unmodified_witness :
  lacks_edge_types schema_only /\
  get_graph_schema "g" (PyBool false)
    (up [Decoded graph_found; Decoded schema_only]) =
  (Ok schema_only,
   snd (schema_response "g" (PyBool false)
          (snd (check_graph_exists "g"
                  (up [Decoded graph_found; Decoded schema_only]))))).
Proof.
  assert (Hlacks : lacks_edge_types schema_only).
  { apply (no_edge_types schema_only
             [("graph", PyDict [("schema", PyDict [("nodes", PyList [])])])]
             [("schema", PyDict [("nodes", PyList [])])]); reflexivity. }
  split; [exact Hlacks |].
  exact (get_graph_schema_unmodified "g" (PyBool false)
           (up [Decoded graph_found; Decoded schema_only])
           (snd (check_graph_exists "g"
                   (up [Decoded graph_found; Decoded schema_only])))
           (snd (schema_response "g" (PyBool false)
                   (snd (check_graph_exists "g"
                           (up [Decoded graph_found; Decoded schema_only])))))
           schema_only eq_refl eq_refl Hlacks).
Defined.

(** C7 as it stands does not hold.  A response whose [data] is the number
    [5] has no [data.graph.edgeTypes], and [get_graph_schema] does not
    return it: [data.get] raises [AttributeError]. *)
Lemma get_graph_schema_unmodified_counterexample :
  ~ (forall (graph_name : string) (include_variants : value)
            (w w1 w2 : World) (response : value),
       check_graph_exists graph_name w = (Ok true, w1) ->
       schema_response graph_name include_variants w1 = (Ok response, w2) ->
       edge_types_of response = None ->
       get_graph_schema graph_name include_variants w = (Ok response, w2)).
Proof.
  intros H.
  specialize (H "g" (PyBool false)
                (up [Decoded graph_found; Decoded number_data])
                (snd (check_graph_exists "g"
                        (up [Decoded graph_found; Decoded number_data])))
                (snd (schema_response "g" (PyBool false)
                        (snd (check_graph_exists "g"
                                (up [Decoded graph_found; Decoded number_data])))))
                number_data eq_refl eq_refl eq_refl).
  apply (f_equal fst) in H. vm_compute in H. discriminate H.
Qed.

(** What happens there instead. *)
Example number_data_raises :
  fst (get_graph_schema "g" (PyBool false)
         (up [Decoded graph_found; Decoded number_data]))
  = Raise AttributeError.
Proof.
  reflexivity.
Qed.

(** ** Relationship labels *)

Section Dicts.

Variables (k k' : string) (x : value).

Lemma dict_get_set_same (d : list (string * value)) :
  dict_get k (dict_set k x d) = Some x.
Proof.
  induction d as [| [k0 v0] d IH]; simpl.
  - now rewrite String.eqb_refl.
  - destruct (String.eqb k0 k) eqn:E; simpl.
    + now rewrite String.eqb_refl.
    + now rewrite E.
Qed.

Lemma dict_get_set_other (d : list (string * value)) :
  k <> k' -> dict_get k (dict_set k' x d) = dict_get k d.
Proof.
  intros Hne. induction d as [| [k0 v0] d IH]; simpl.
  - destruct (String.eqb_spec k' k); [congruence | reflexivity].
  - destruct (String.eqb_spec k0 k'); simpl.
    + subst k0.
      destruct (String.eqb_spec k' k); [congruence | reflexivity].
    + destruct (String.eqb k0 k); [reflexivity | exact IH].
Qed.

Lemma dict_get_del_same (d : list (string * value)) :
  dict_get k (dict_del k d) = None.
Proof.
  induction d as [| [k0 v0] d IH]; simpl; [reflexivity |].
  destruct (String.eqb k0 k) eqn:E; simpl; [exact IH | now rewrite E].
Qed.

Lemma dict_get_del_other (d : list (string * value)) :
  k <> k' -> dict_get k (dict_del k' d) = dict_get k d.
Proof.
  intros Hne. induction d as [| [k0 v0] d IH]; simpl; [reflexivity |].
  destruct (String.eqb_spec k0 k'); simpl.
  - subst k0. destruct (String.eqb_spec k' k); [congruence | exact IH].
  - destruct (String.eqb k0 k); [reflexivity | exact IH].
Qed.

End Dicts.














Lemma dict_get_nonempty (k : string) (d : list (string * value)) (x : value) :
  dict_get k d = Some x -> truthy (PyDict d) = true.
Proof.
  destruct d; [discriminate | reflexivity].
Qed.





(** The example of C4, run: [relationships] is [knows, likes] and the graph
    object has no [edgeTypes]. *)
Example two_edges_relationships :
  fst (get_graph_schema "g" (PyBool false) two_edges_world) =
  Ok (PyDict
        [("data",
          PyDict
            [("graph",
              PyDict
                [("schema", PyDict [("nodes", PyList [])]);
                 ("relationships",
                  PyList [PyStr "knows"; PyStr "likes"])])])]).
Proof.
  reflexivity.
Qed.

(** Scalars of two kinds under [value] have no order: [sorted] raises, and
    so does [get_graph_schema]. *)
Example mixed_scalars_raise :
  fst (get_graph_schema "g" (PyBool false)
         (up [Decoded graph_found; Decoded mixed_response]))
  = Raise TypeError.
Proof.
  reflexivity.
Qed.

(** A body that is valid JSON and not an object, here [null], makes the
    existence check raise. *)
Example check_graph_exists_null_body :
  fst (check_graph_exists "g" (up [Decoded PyNone])) = Raise TypeError.
Proof.
  reflexivity.
Qed.

(** ** The connection handle *)

Section OneClient.

Variable h : Handle.

Lemma keeps_refl (w : World) : keeps h w w.
Proof.
  split; [reflexivity |]. split; [reflexivity |].
  exists []. split; [now rewrite app_nil_r | constructor].
Qed.

Lemma keeps_trans (w1 w2 w3 : World) :
  keeps h w1 w2 -> keeps h w2 w3 -> keeps h w1 w3.
Proof.
  intros [Hs1 [Hc1 [a1 [He1 Hf1]]]] [Hs2 [Hc2 [a2 [He2 Hf2]]]].
  split; [congruence |]. split; [congruence |].
  exists (a1 ++ a2)%list. split.
  - now rewrite He2, He1, app_assoc.
  - apply Forall_app. now split.
Qed.

Lemma calm_lift {A} (r : result A) : calm h (lift r).
Proof.
  intros w _. apply keeps_refl.
Qed.

Lemma calm_ret {A} (a : A) : calm h (ret a).
Proof.
  intros w _. apply keeps_refl.
Qed.

Lemma calm_bind {A B} (m : M A) (k : A -> M B) :
  calm h m -> (forall a, calm h (k a)) -> calm h (bind m k).
Proof.
  intros Hm Hk w Hup. unfold bind.
  specialize (Hm w Hup). destruct (m w) as [[a | e] w1]; simpl in *.
  - apply (keeps_trans w w1); [assumption |].
    apply Hk. destruct Hm as [Hs _]. congruence.
  - assumption.
Qed.

Lemma calm_query_db (query : string) (endpoint : option string)
    (variables : option value) :
  calm h (ctx <- mcp_get_context ;; query_db ctx query endpoint variables).
Proof.
  intros w Hup. unfold bind, mcp_get_context.
  rewrite (query_db_runs w {| lifespan_context := serving w |}
             {| graphql_client := h |} query endpoint variables Hup).
  cbn [snd]. split; [reflexivity |]. split; [reflexivity |].
  eexists. split.
  - cbn [record events]. reflexivity.
  - repeat constructor.
Qed.

Lemma calm_dispatch (query : string) : calm h (dispatch query).
Proof.
  apply calm_query_db.
Qed.

Lemma calm_get_schema : calm h get_schema.
Proof.
  unfold get_schema. apply calm_bind; [apply calm_dispatch |].
  intros a. apply calm_ret.
Qed.

Lemma calm_check_graph_exists (graph_name : string) :
  calm h (check_graph_exists graph_name).
Proof.
  unfold check_graph_exists.
  apply calm_bind; [apply calm_lift | intros q].
  apply calm_bind; [apply calm_dispatch | intros result].
  apply calm_bind; [apply calm_lift | intros found].
  destruct found; apply calm_ret.
Qed.

Lemma calm_get_graph_schema (graph_name : string) (include_variants : value) :
  calm h (get_graph_schema graph_name include_variants).
Proof.
  unfold get_graph_schema.
  apply calm_bind; [apply calm_check_graph_exists | intros found].
  destruct found; cbn [negb]; [| apply calm_ret].
  apply calm_bind; [apply calm_lift | intros q].
  apply calm_bind; [apply calm_dispatch | intros result].
  apply calm_lift.
Qed.

Lemma calm_answer {A} (m : M A) : calm h m -> calm h (answer m).
Proof.
  intros Hm w Hup. exact (Hm w Hup).
Qed.

Lemma calm_handle (c : Call) : calm h (handle c).
Proof.
  destruct c; cbn [handle]; apply calm_answer.
  - apply calm_query_db.
  - apply calm_get_schema.
  - apply calm_check_graph_exists.
  - apply calm_get_graph_schema.
  - apply calm_lift.
Qed.

Lemma calm_serve (calls : list Call) : calm h (serve calls).
Proof.
  induction calls as [| c calls IH]; cbn [serve].
  - apply calm_ret.
  - apply calm_bind; [apply calm_handle | intros _; exact IH].
Qed.

End OneClient.

(** The host answers every call: serving does not raise. *)
Lemma handle_returns (c : Call) (w : World) : fst (handle c w) = Ok tt.
Proof.
  destruct c; reflexivity.
Qed.

Lemma serve_returns (calls : list Call) (w : World) :
  fst (serve calls w) = Ok tt.
Proof.
  revert w. induction calls as [| c calls IH]; intros w; [reflexivity |].
  cbn [serve]. unfold bind.
  pose proof (handle_returns c w) as Hc.
  destruct (handle c w) as [[[] | e] w']; [apply IH | discriminate].
Qed.

Lemma run_server_runs (calls : list Call) (crash : option exn) (w : World) :
  run_server calls crash w =
  (match crash with None => Ok tt | Some e => Raise e end,
   record (Closed {| hid := clients w; http2 := true; timeout := 10 |})
          (snd (serve calls (started w)))).
Proof.
  unfold run_server, app_lifespan, bind, install.
  cbn [record remote events serving clients].
  change {| remote := remote w;
            events := events w ++ [Opened {| hid := clients w; http2 := true; timeout := 10 |}];
            serving := Some {| graphql_client :=
                                 {| hid := clients w; http2 := true; timeout := 10 |} |};
            clients := S (clients w) |} with (started w).
  pose proof (serve_returns calls (started w)) as Hs.
  destruct (serve calls (started w)) as [[[] | e] w3]; [| discriminate].
  destruct crash; reflexivity.
Qed.

(** C9: a run of the server, whatever calls it serves and whether it ends
    normally or with an exception, makes one client, first; everything
    between is a post through that client; and the client is closed once,
    last. *)
Theorem run_server_one_client (calls : list Call) (crash : option exn)
    (w : World) :
  let h := {| hid := clients w; http2 := true; timeout := 10 |} in
  fst (run_server calls crash w) =
    match crash with None => Ok tt | Some e => Raise e end /\
  exists during,
    events (snd (run_server calls crash w)) =
    (events w ++ [Opened h] ++ during ++ [Closed h])%list /\
    Forall (through h) during.
Proof.
  intros h. rewrite run_server_runs. fold h. split; [reflexivity |].
  destruct (calm_serve h calls (started w) eq_refl)
    as [_ [_ [added [Hev Hall]]]].
  exists added. split; [| assumption].
  cbn [snd record events]. rewrite Hev. cbn [started events]. fold h.
  now rewrite <- !app_assoc.
Qed.

(** ** Further properties of the dispatcher *)

Lemma posts_app (a b : list Event) : posts (a ++ b) = posts a + posts b.
Proof.
  unfold posts. now rewrite filter_app, length_app.
Qed.

(** X1: a decoded body, whatever JSON it is, is returned as it was decoded. *)
Theorem query_db_returns_decoded (w : World) (ctx : Context) (app : AppContext)
    (query : string) (endpoint : option string) (variables : option value)
    (data : value) :
  lifespan_context ctx = Some app ->
  remote w (events w)
         (wire_request (graphql_client app) query endpoint variables)
  = Decoded data ->
  fst (query_db ctx query endpoint variables w) = Ok data.
Proof.
  intros Hctx Hout.
  rewrite (query_db_runs w ctx app query endpoint variables Hctx).
  simpl. simpl in Hout. now rewrite Hout.
Qed.

Lemma query_db_returns_decoded_witness :
  fst (query_db {| lifespan_context := Some {| graphql_client := the_client |} |}
         "{ graphs { name } }" None None (up [Decoded (PyList [PyInt 1])]))
  = Ok (PyList [PyInt 1]).
Proof.
  exact (query_db_returns_decoded (up [Decoded (PyList [PyInt 1])])
           {| lifespan_context := Some {| graphql_client := the_client |} |}
           {| graphql_client := the_client |}
           "{ graphs { name } }" None None (PyList [PyInt 1])
           eq_refl eq_refl).
Defined.

(** X2: whatever the remote end does, a call of [query_db] returns a value, and
    it has made one round trip: no retry after a failure, no answer from a
    cache. *)
Theorem query_db_one_round_trip (w : World) (ctx : Context) (app : AppContext)
    (query : string) (endpoint : option string) (variables : option value) :
  lifespan_context ctx = Some app ->
  (exists v, fst (query_db ctx query endpoint variables w) = Ok v) /\
  posts (events (snd (query_db ctx query endpoint variables w))) =
  S (posts (events w)).
Proof.
  intros Hctx.
  rewrite (query_db_runs w ctx app query endpoint variables Hctx).
  cbn [fst snd record events]. split; [eauto |].
  rewrite posts_app. cbn. now rewrite Nat.add_1_r.
Qed.

Lemma query_db_one_round_trip_witness :
  (exists v,
     fst (query_db
            {| lifespan_context := Some {| graphql_client := the_client |} |}
            "{ graphs { name } }" None None (up [Failed "timed out"])) = Ok v) /\
  posts (events (snd (query_db
            {| lifespan_context := Some {| graphql_client := the_client |} |}
            "{ graphs { name } }" None None (up [Failed "timed out"])))) = 1.
Proof.
  exact (query_db_one_round_trip (up [Failed "timed out"])
           {| lifespan_context := Some {| graphql_client := the_client |} |}
           {| graphql_client := the_client |}
           "{ graphs { name } }" None None eq_refl).
Defined.

(** X3: variables that are not empty go over the wire as they were given,
    in the one request the call posts. *)
Theorem query_db_given_variables (w : World) (ctx : Context) (app : AppContext)
    (query : string) (endpoint : option string) (variables : value) :
  lifespan_context ctx = Some app ->
  truthy variables = true ->
  events (snd (query_db ctx query endpoint (Some variables) w)) =
  (events w ++
    [Posted {| client := graphql_client app;
               url := match endpoint with
                      | Some e => e
                      | None => "http://localhost:1736/"
                      end;
               json := PyDict [("query", PyStr query);
                               ("variables", variables)];
               headers := [("Content-Type", "application/json")] |}])%list.
Proof.
  intros Hctx Htruthy.
  rewrite (query_db_runs w ctx app query endpoint (Some variables) Hctx).
  cbn [snd record events]. unfold wire_request, py_or. now rewrite Htruthy.
Qed.

Lemma query_db_given_variables_witness :
  events (snd (query_db
                 {| lifespan_context := Some {| graphql_client := the_client |} |}
                 "query($n: String!) { graph(path: $n) { name } }"
                 (Some "http://db:1736/")
                 (Some (PyDict [("n", PyStr "g")])) (up []))) =
  [Posted {| client := the_client;
             url := "http://db:1736/";
             json := PyDict [("query",
                              PyStr "query($n: String!) { graph(path: $n) { name } }");
                             ("variables", PyDict [("n", PyStr "g")])];
             headers := [("Content-Type", "application/json")] |}].
Proof.
  exact (query_db_given_variables (up [])
           {| lifespan_context := Some {| graphql_client := the_client |} |}
           {| graphql_client := the_client |}
           "query($n: String!) { graph(path: $n) { name } }"
           (Some "http://db:1736/") (PyDict [("n", PyStr "g")])
           eq_refl eq_refl).
Defined.

(** What [dispatch] does while the server is up. *)
Lemma dispatch_runs (w : World) (app : AppContext) (query : string) :
  serving w = Some app ->
  dispatch query w =
  (Ok (match remote w (events w)
                 (wire_request (graphql_client app) query None None) with
       | Decoded data => data
       | Failed e => PyStr ("Error: " ++ e)
       end),
   record (Posted (wire_request (graphql_client app) query None None)) w).
Proof.
  intros Hup. unfold dispatch, bind, mcp_get_context.
  now rewrite (query_db_runs w {| lifespan_context := serving w |} app
                 query None None Hup).
Qed.

(** ** Further properties of the resources *)

(** X4: while the server is up, [get_schema] makes one round trip: it posts the
    introspection document to the default endpoint with empty variables and
    returns the decoded body, or the error string of the dispatcher. *)
Theorem get_schema_round_trip (w : World) (app : AppContext) :
  serving w = Some app ->
  let request :=
    {| client := graphql_client app;
       url := "http://localhost:1736/";
       json := PyDict [("query", PyStr get_schema_query);
                       ("variables", PyDict [])];
       headers := [("Content-Type", "application/json")] |} in
  fst (get_schema w) =
    Ok (match remote w (events w) request with
        | Decoded data => data
        | Failed e => PyStr ("Error: " ++ e)
        end) /\
  events (snd (get_schema w)) = (events w ++ [Posted request])%list.
Proof.
  intros Hup request. unfold get_schema, bind.
  rewrite (dispatch_runs w app get_schema_query Hup).
  split; reflexivity.
Qed.

Lemma get_schema_round_trip_witness :
  fst (get_schema (up [Failed "timed out"])) = Ok (PyStr "Error: timed out") /\
  events (snd (get_schema (up [Failed "timed out"]))) =
  ([] ++
   [Posted {| client := the_client;
              url := "http://localhost:1736/";
              json := PyDict [("query", PyStr get_schema_query);
                              ("variables", PyDict [])];
              headers := [("Content-Type", "application/json")] |}])%list.
Proof.
  exact (get_schema_round_trip (up [Failed "timed out"])
           {| graphql_client := the_client |} eq_refl).
Defined.

(** X5: the graph name goes into the existence query between two double
    quotes, as given: nothing in it is escaped or checked. *)
Theorem verify_query_verbatim :
  exists before after : string,
    forall graph_name,
      verify_query graph_name =
      Ok (before ++ "graph(path: " ++ dq ++ graph_name ++ dq ++ ")" ++ after).
Proof.
  exists (text [EmptyString; "    {"; "      "]).
  exists (text [" {"; "        nodes {"; "          list {";
                "            name"; "          }"; "        }"; "      }";
                "    }"]).
  intros graph_name. reflexivity.
Qed.

(** X6: the schema query is fixed text around two slots: the graph name,
    between two double quotes and as given, and after [propertyType] the
    word [variants] for the [str] ["true"] and nothing for any other
    argument. *)
Theorem schema_query_verbatim :
  exists before between after : string,
    forall graph_name include_variants,
      schema_query graph_name include_variants =
      Ok (before ++ "graph(path: " ++ dq ++ graph_name ++ dq ++ ")" ++ between
            ++ "propertyType" ++ nl ++ "              "
            ++ match include_variants with
               | PyStr s => if String.eqb s "true" then "variants"
                            else EmptyString
               | _ => EmptyString
               end
            ++ after).
Proof.
  exists (text [EmptyString; "    {"; "      "]).
  exists (text [" {"; "        schema {"; "          nodes {";
                "            properties {"; "              key";
                "              "]).
  exists (text [EmptyString; "            }"; "          }"; "        }";
                "        edgeTypes: edges {"; "          list {";
                "            properties {"; "              keys";
                "              values {"; "                value";
                "              }"; "            }"; "          }";
                "        }"; "      }"; "    }"]).
  intros graph_name include_variants.
  unfold schema_query, variants_field, eq_str.
  destruct include_variants as [| b | z | s | l | d]; reflexivity.
Qed.

(** X7: the existence check raises exactly on a body that is no container:
    [null], a boolean or a number give [TypeError]; an object, a string or
    an array give a boolean. *)
Theorem check_graph_exists_raises_on_scalars (graph_name : string)
    (w w' : World) (response : value) :
  probe graph_name w = (Ok response, w') ->
  match response with
  | PyNone | PyBool _ | PyInt _ =>
      check_graph_exists graph_name w = (Raise TypeError, w')
  | PyStr _ | PyList _ | PyDict _ =>
      exists found, check_graph_exists graph_name w = (Ok found, w')
  end.
Proof.
  intros Hprobe. rewrite check_graph_exists_probe, Hprobe.
  destruct response; cbn [py_in]; eauto.
Qed.

Lemma check_graph_exists_raises_on_scalars_witness :
  check_graph_exists "g" (up [Decoded PyNone]) =
  (Raise TypeError, snd (probe "g" (up [Decoded PyNone]))).
Proof.
  exact (check_graph_exists_raises_on_scalars "g" (up [Decoded PyNone])
           (snd (probe "g" (up [Decoded PyNone]))) PyNone eq_refl).
Defined.

(** The world the existence check leaves: one post more. *)
Lemma check_graph_exists_world (graph_name : string) (w : World)
    (app : AppContext) :
  serving w = Some app ->
  exists q,
    verify_query graph_name = Ok q /\
    snd (check_graph_exists graph_name w) =
    record (Posted (wire_request (graphql_client app) q None None)) w.
Proof.
  intros Hup. destruct (verify_query_total graph_name) as [q Hq].
  exists q. split; [assumption |].
  rewrite check_graph_exists_probe. unfold probe, bind, lift. rewrite Hq.
  rewrite (dispatch_runs w app q Hup).
  match goal with
  | |- context [py_in "errors" ?r] => destruct (py_in "errors" r)
  end; reflexivity.
Qed.

(** The world [get_graph_schema] leaves: that of the check, and after a
    check that returned [True] one more post. *)
Lemma get_graph_schema_world (graph_name : string) (include_variants : value)
    (w : World) (app : AppContext) :
  serving w = Some app ->
  exists q1 q2,
    verify_query graph_name = Ok q1 /\
    schema_query graph_name include_variants = Ok q2 /\
    let w1 := record (Posted (wire_request (graphql_client app) q1 None None))
                     w in
    snd (get_graph_schema graph_name include_variants w) =
    match fst (check_graph_exists graph_name w) with
    | Ok true =>
        record (Posted (wire_request (graphql_client app) q2 None None)) w1
    | _ => w1
    end.
Proof.
  intros Hup.
  destruct (check_graph_exists_world graph_name w app Hup) as [q1 [Hq1 Hw1]].
  destruct (schema_query_total graph_name include_variants) as [q2 Hq2].
  exists q1, q2. split; [assumption |]. split; [assumption |].
  intros w1. unfold get_graph_schema, bind.
  destruct (check_graph_exists graph_name w) as [[[|] | e] w1'] eqn:Hcheck;
    cbn [fst snd negb] in *; subst w1'; try reflexivity.
  unfold lift at 1. rewrite Hq2.
  match goal with
  | |- context [dispatch q2 ?w0] => rewrite (dispatch_runs w0 app q2 Hup)
  end.
  reflexivity.
Qed.

(** X8: while the server is up, [get_graph_schema] makes two round trips when
    the existence check returned [True], and one, that of the check, when it
    returned [False] or raised. *)
Theorem get_graph_schema_round_trips (graph_name : string)
    (include_variants : value) (w : World) (app : AppContext) :
  serving w = Some app ->
  posts (events (snd (get_graph_schema graph_name include_variants w))) =
  posts (events w) +
  match fst (check_graph_exists graph_name w) with
  | Ok true => 2
  | _ => 1
  end.
Proof.
  intros Hup.
  destruct (get_graph_schema_world graph_name include_variants w app Hup)
    as [q1 [q2 [_ [_ Hw]]]].
  cbn zeta in Hw. rewrite Hw.
  destruct (fst (check_graph_exists graph_name w)) as [[|] | e];
    cbn [record events]; rewrite !posts_app; cbn; lia.
Qed.

Lemma get_graph_schema_round_trips_witness :
  posts (events (snd (get_graph_schema "g" (PyBool false) two_edges_world))) = 2.
Proof.
  exact (get_graph_schema_round_trips "g" (PyBool false) two_edges_world
           {| graphql_client := the_client |} eq_refl).
Defined.

(** X9: every request a resource makes goes through the client of the context
    to the default endpoint, with empty variables and the JSON content type,
    and a resource adds nothing but its requests to the history; the prompt
    adds nothing: it makes no request. *)
Theorem resources_post_to_default (c : Call) (w : World) (h : Handle) :
  serving w = Some {| graphql_client := h |} ->
  is_resource c = true ->
  exists added,
    events (snd (handle c w)) = (events w ++ added)%list /\
    Forall (default_post h) added /\
    match c with
    | CallPrompt _ => added = []
    | _ => True
    end.
Proof.
  intros Hup Hres.
  assert (Hwire : forall q,
            default_post h (Posted (wire_request h q None None))).
  { intros q. repeat split. }
  destruct c as [q e v | | graph_name | graph_name include_variants | message];
    [discriminate | | | |]; cbn [handle]; unfold answer; cbn [snd].
  - unfold get_schema, bind.
    rewrite (dispatch_runs w _ get_schema_query Hup). unfold ret.
    cbn [snd record events graphql_client].
    eexists. split; [reflexivity |]. split; [| exact I].
    constructor; [apply Hwire | constructor].
  - destruct (check_graph_exists_world graph_name w _ Hup) as [q [_ Hw]].
    rewrite Hw. cbn [record events graphql_client].
    eexists. split; [reflexivity |]. split; [| exact I].
    constructor; [apply Hwire | constructor].
  - destruct (get_graph_schema_world graph_name include_variants w _ Hup)
      as [q1 [q2 [_ [_ Hw]]]].
    cbn zeta in Hw. rewrite Hw.
    destruct (fst (check_graph_exists graph_name w)) as [[|] | e];
      cbn [record events graphql_client]; eexists;
      (split; [now rewrite <- ?app_assoc |]); (split; [| exact I]);
      repeat (constructor; [apply Hwire |]); constructor.
  - exists []. split; [now rewrite app_nil_r |]. split; [constructor | reflexivity].
Qed.

Lemma resources_post_to_default_witness :
  exists added,
    events (snd (handle (CallGetGraphSchema "g" (PyBool false)) two_edges_world))
    = ([] ++ added)%list /\
    Forall (default_post the_client) added /\
    True.
Proof.
  exact (resources_post_to_default (CallGetGraphSchema "g" (PyBool false))
           two_edges_world the_client eq_refl eq_refl).
Defined.

(** X10: when both round trips fail, the first with a message that does not
    contain [errors], [get_graph_schema] takes the graph to exist, sends the
    schema query all the same, and returns the error string of the second
    failure: a [str], not an error object. *)
Theorem get_graph_schema_transport_down (graph_name : string)
    (include_variants : value) (w w1 w2 : World) (m1 m2 : string) :
  probe graph_name w = (Ok (PyStr ("Error: " ++ m1)), w1) ->
  contains "errors" m1 = false ->
  schema_response graph_name include_variants w1 =
    (Ok (PyStr ("Error: " ++ m2)), w2) ->
  get_graph_schema graph_name include_variants w =
  (Ok (PyStr ("Error: " ++ m2)), w2).
Proof.
  intros Hprobe Hm1 Hresp.
  assert (Hcheck : check_graph_exists graph_name w = (Ok true, w1)).
  { rewrite check_graph_exists_probe, Hprobe. cbn [py_in].
    now rewrite contains_errors_after_prefix, Hm1. }
  now rewrite (get_graph_schema_aggregate _ _ _ _ _ _ Hcheck Hresp).
Qed.

Lemma get_graph_schema_transport_down_witness :
  get_graph_schema "g" (PyBool false)
    (up [Failed "All connection attempts failed"; Failed "timed out"]) =
  (Ok (PyStr "Error: timed out"),
   snd (schema_response "g" (PyBool false)
          (snd (probe "g"
                  (up [Failed "All connection attempts failed";
                       Failed "timed out"]))))).
Proof.
  exact (get_graph_schema_transport_down "g" (PyBool false)
           (up [Failed "All connection attempts failed"; Failed "timed out"])
           (snd (probe "g"
                   (up [Failed "All connection attempts failed";
                        Failed "timed out"])))
           (snd (schema_response "g" (PyBool false)
                   (snd (probe "g"
                           (up [Failed "All connection attempts failed";
                                Failed "timed out"])))))
           "All connection attempts failed" "timed out"
           eq_refl eq_refl eq_refl).
Defined.

(** X11: when the round trip of the existence check fails with a message that
    contains [errors], [get_graph_schema] reports the graph as missing,
    whether it exists or not. *)
Theorem get_graph_schema_failure_reported_missing (graph_name : string)
    (include_variants : value) (w w1 : World) (m : string) :
  probe graph_name w = (Ok (PyStr ("Error: " ++ m)), w1) ->
  contains "errors" m = true ->
  get_graph_schema graph_name include_variants w =
  (Ok (PyDict
         [("errors",
           PyList
             [PyDict
                [("message",
                  PyStr ("Graph " ++ graph_name ++ " does not exist"))]])]),
   w1).
Proof.
  intros Hprobe Hm.
  assert (Hcheck : check_graph_exists graph_name w = (Ok false, w1)).
  { rewrite check_graph_exists_probe, Hprobe. cbn [py_in].
    now rewrite contains_errors_after_prefix, Hm. }
  unfold get_graph_schema, bind. rewrite Hcheck. reflexivity.
Qed.

Lemma get_graph_schema_failure_reported_missing_witness :
  get_graph_schema "g" (PyBool false) (up [Failed "too many errors"]) =
  (Ok (PyDict
         [("errors",
           PyList [PyDict [("message", PyStr "Graph g does not exist")]])]),
   snd (probe "g" (up [Failed "too many errors"]))).
Proof.
  exact (get_graph_schema_failure_reported_missing "g" (PyBool false)
           (up [Failed "too many errors"])
           (snd (probe "g" (up [Failed "too many errors"])))
           "too many errors" eq_refl eq_refl).
Defined.

(** ** Further properties of the aggregation *)

Lemma py_getitem_after_in (k : string) (v : value) :
  py_in k v = Ok true ->
  (exists x, py_getitem v k = Ok x) \/ py_getitem v k = Raise TypeError.
Proof.
  destruct v; cbn [py_in py_getitem]; try discriminate; auto.
  unfold dict_has. destruct (dict_get k d); [eauto | discriminate].
Qed.

Lemma py_in_raises (k : string) (v : value) (e : exn) :
  py_in k v = Raise e -> e = TypeError.
Proof.
  destruct v; cbn [py_in]; congruence.
Qed.

Lemma collect_values_raises (values : list value) (acc : list key) (e : exn) :
  collect_values values acc = Raise e -> e = TypeError.
Proof.
  revert acc. induction values as [| v values IH]; intros acc; [discriminate |].
  cbn [collect_values].
  destruct (py_in "value" v) as [[|] | e'] eqn:Hin; cbn [rbind].
  - destruct (py_getitem_after_in _ _ Hin) as [[x ->] | ->]; cbn [rbind];
      [| congruence].
    destruct x; cbn [py_hash rbind]; try congruence; apply IH.
  - apply IH.
  - apply py_in_raises in Hin. congruence.
Qed.

Lemma collect_edges_raises (edges : list value) (acc : list key) (e : exn) :
  collect_edges edges acc = Raise e -> e = TypeError.
Proof.
  revert acc. induction edges as [| edge edges IH]; intros acc; [discriminate |].
  cbn [collect_edges].
  destruct (py_in "properties" edge) as [[|] | e'] eqn:Hin; cbn [rbind].
  - destruct (py_getitem_after_in _ _ Hin) as [[props ->] | ->]; cbn [rbind];
      [| congruence].
    destruct (py_in "values" props) as [[|] | e'] eqn:Hvals; cbn [rbind].
    + destruct (py_getitem_after_in _ _ Hvals) as [[vals ->] | ->];
        cbn [rbind]; [| congruence].
      destruct vals; cbn [py_iter rbind]; try congruence;
        match goal with
        | |- rbind (collect_values ?vs acc) _ = _ -> _ =>
            destruct (collect_values vs acc) as [acc' | e'] eqn:Hcv;
            cbn [rbind];
            [apply IH | apply collect_values_raises in Hcv; congruence]
        end.
    + apply IH.
    + apply py_in_raises in Hvals. congruence.
  - apply IH.
  - apply py_in_raises in Hin. congruence.
Qed.

Lemma insert_sorted_raises (x : key) (l : list key) (e : exn) :
  insert_sorted x l = Raise e -> e = TypeError.
Proof.
  induction l as [| y l IH]; [discriminate |].
  cbn [insert_sorted].
  destruct (key_lt y x) as [[|] | e'] eqn:Hlt; cbn [rbind].
  - destruct (insert_sorted x l); cbn [rbind]; [discriminate |].
    intros H. apply IH. congruence.
  - discriminate.
  - intros H. injection H as <-.
    unfold key_lt in Hlt.
    destruct y, x; cbn in Hlt; congruence.
Qed.

Lemma py_sorted_raises (l : list key) (e : exn) :
  py_sorted l = Raise e -> e = TypeError.
Proof.
  induction l as [| x l IH]; [discriminate |].
  cbn [py_sorted]. destruct (py_sorted l) as [s | e']; cbn [rbind].
  - apply insert_sorted_raises.
  - intros H. apply IH. congruence.
Qed.

(** The three ways [aggregate] can end: the response as it came, the
    response with the graph object rewritten, or one of two exceptions. *)
Lemma aggregate_cases (r : value) :
  aggregate r = Ok r \/
  (exists top data graph relationships,
     r = PyDict top /\
     dict_get "data" top = Some (PyDict data) /\
     dict_get "graph" data = Some (PyDict graph) /\
     aggregate r =
     Ok (PyDict
           (dict_set "data"
              (PyDict
                 (dict_set "graph"
                    (PyDict
                       (dict_del "edgeTypes"
                          (dict_set "relationships" (PyList relationships)
                             graph)))
                    data))
              top))) \/
  aggregate r = Raise TypeError \/
  aggregate r = Raise AttributeError.
Proof.
  remember (aggregate r) as res eqn:Hres.
  destruct r as [| b | z | s | l | top]; try (left; exact Hres).
  unfold aggregate in Hres.
  destruct (dict_get "data" top) as [data |] eqn:Hdata; [| left; exact Hres].
  destruct (truthy data) eqn:Htd; [| left; exact Hres].
  destruct data as [| b | z | s | l | data]; cbn [py_get rbind] in Hres;
    try (right; right; right; exact Hres).
  destruct (dict_get "graph" data) as [g |] eqn:Hgraph;
    cbn [rbind truthy] in Hres; [| left; exact Hres].
  destruct (truthy g) eqn:Htg; [| left; exact Hres].
  destruct g as [| b | z | s | l | graph]; cbn [py_in rbind] in Hres;
    try (right; right; left; exact Hres).
  - destruct (contains "edgeTypes" s); [| left; exact Hres].
    right; right; left; exact Hres.
  - destruct (existsb (eq_str "edgeTypes") l); [| left; exact Hres].
    right; right; left; exact Hres.
  - unfold dict_has in Hres.
    destruct (dict_get "edgeTypes" graph) as [et |] eqn:Het;
      [| left; exact Hres].
    cbn [py_getitem] in Hres. rewrite Het in Hres. cbn [rbind] in Hres.
    destruct et as [| b | z | s | l | et]; cbn [py_get rbind] in Hres;
      try (right; right; right; exact Hres).
    assert (Hiter : forall edges_value : value,
      (exists edges, py_iter edges_value = Ok edges) \/
      py_iter edges_value = Raise TypeError).
    { intros v. destruct v; cbn [py_iter]; eauto. }
    assert (Hedges : exists edges_value,
              match dict_get "list" et with
              | Some x => Ok x
              | None => Ok (PyList [])
              end = Ok edges_value).
    { destruct (dict_get "list" et); eauto. }
    destruct Hedges as [edges_value Hev]. rewrite Hev in Hres.
    cbn [rbind] in Hres.
    destruct (Hiter edges_value) as [[edges Hit] | Hit]; rewrite Hit in Hres;
      cbn [rbind] in Hres; [| right; right; left; exact Hres].
    destruct (collect_edges edges []) as [unique | e] eqn:Hc;
      cbn [rbind] in Hres;
      [| apply collect_edges_raises in Hc; subst e;
         right; right; left; exact Hres].
    destruct (py_sorted unique) as [rels | e] eqn:Hs; cbn [rbind] in Hres;
      [| apply py_sorted_raises in Hs; subst e;
         right; right; left; exact Hres].
    cbn [py_setitem rbind py_delitem] in Hres. unfold dict_has in Hres.
    rewrite dict_get_set_other in Hres by discriminate.
    rewrite Het in Hres. cbn [stored] in Hres.
    right; left. exists top, data, graph, (map key_value rels).
    repeat split; assumption.
Qed.

Lemma truthy_dict_set (k : string) (x : value) (d : list (string * value)) :
  truthy (PyDict (dict_set k x d)) = true.
Proof.
  apply (dict_get_nonempty k _ x), dict_get_set_same.
Qed.

(** A response that has been through [aggregate] goes through unchanged. *)
Lemma aggregate_done (top data graph : list (string * value))
    (relationships : value) :
  let r := PyDict
             (dict_set "data"
                (PyDict
                   (dict_set "graph"
                      (PyDict
                         (dict_del "edgeTypes"
                            (dict_set "relationships" relationships graph)))
                      data))
                top) in
  aggregate r = Ok r.
Proof.
  intros r. subst r. unfold aggregate.
  rewrite dict_get_set_same, truthy_dict_set. cbn [py_get].
  rewrite dict_get_set_same. cbn [rbind].
  assert (Hrel : dict_get "relationships"
                   (dict_del "edgeTypes"
                      (dict_set "relationships" relationships graph))
                 = Some relationships).
  { rewrite dict_get_del_other by discriminate. apply dict_get_set_same. }
  rewrite (dict_get_nonempty _ _ _ Hrel). cbn [py_in rbind].
  unfold dict_has. now rewrite dict_get_del_same.
Qed.

(** X12: aggregating twice is aggregating once: what [get_graph_schema] returns
    can be given to the aggregation again and comes back as it is. *)
Theorem aggregate_idempotent (r r' : value) :
  aggregate r = Ok r' -> aggregate r' = Ok r'.
Proof.
  intros H.
  destruct (aggregate_cases r)
    as [Hsame | [[top [data [graph [rels [_ [_ [_ Hnew]]]]]]] | [Hex | Hex]]];
    rewrite H in *; try discriminate.
  - injection Hsame as ->. exact H.
  - injection Hnew as ->. apply aggregate_done.
Qed.

Lemma aggregate_idempotent_witness :
  aggregate
    (PyDict
       [("data",
         PyDict
           [("graph",
             PyDict
               [("schema", PyDict [("nodes", PyList [])]);
                ("relationships", PyList [PyStr "knows"; PyStr "likes"])])])]) =
  Ok (PyDict
        [("data",
          PyDict
            [("graph",
              PyDict
                [("schema", PyDict [("nodes", PyList [])]);
                 ("relationships", PyList [PyStr "knows"; PyStr "likes"])])])]).
Proof.
  exact (aggregate_idempotent (PyDict two_edges_response) _ eq_refl).
Defined.

(** X13: the aggregation touches one place only.  Of a response it returns,
    every top-level member but [data] is as it came (an [errors] beside the
    data stays), every member of [data] but [graph] is, and every member of
    the graph object but [relationships] and [edgeTypes] is. *)
Theorem aggregate_frame (r r' : value) :
  aggregate r = Ok r' ->
  (forall k, k <> "data" -> field k r' = field k r) /\
  (forall k, k <> "graph" ->
     match field "data" r' with Some d => field k d | None => None end =
     match field "data" r with Some d => field k d | None => None end) /\
  (forall k, k <> "relationships" -> k <> "edgeTypes" ->
     match field "data" r' with
     | Some d => match field "graph" d with Some g => field k g | None => None end
     | None => None
     end =
     match field "data" r with
     | Some d => match field "graph" d with Some g => field k g | None => None end
     | None => None
     end).
Proof.
  intros H.
  destruct (aggregate_cases r)
    as [Hsame | [[top [data [graph [rels [-> [Hd [Hg Hnew]]]]]]] | [Hex | Hex]]];
    rewrite H in *; try discriminate.
  - injection Hsame as ->. repeat split; reflexivity.
  - injection Hnew as ->. cbn [field]. repeat split.
    + intros k Hk. now apply dict_get_set_other.
    + intros k Hk. rewrite dict_get_set_same, Hd. cbn [field].
      now apply dict_get_set_other.
    + intros k Hk1 Hk2. rewrite dict_get_set_same, Hd. cbn [field].
      rewrite dict_get_set_same, Hg. cbn [field].
      rewrite dict_get_del_other by assumption.
      now apply dict_get_set_other.
Qed.

Lemma aggregate_frame_witness :
  (forall k, k <> "data" ->
     field k two_edges_aggregated = field k two_edges_with_errors) /\
  (forall k, k <> "graph" ->
     match field "data" two_edges_aggregated with
     | Some d => field k d
     | None => None
     end =
     match field "data" two_edges_with_errors with
     | Some d => field k d
     | None => None
     end) /\
  (forall k, k <> "relationships" -> k <> "edgeTypes" ->
     match field "data" two_edges_aggregated with
     | Some d => match field "graph" d with Some g => field k g | None => None end
     | None => None
     end =
     match field "data" two_edges_with_errors with
     | Some d => match field "graph" d with Some g => field k g | None => None end
     | None => None
     end).
Proof.
  exact (aggregate_frame two_edges_with_errors two_edges_aggregated eq_refl).
Defined.

(** X14: while the server is up, [get_graph_schema] raises nothing but
    [TypeError] and [AttributeError]: its lookups are guarded, so a missing
    member is no [KeyError]. *)
Theorem get_graph_schema_raises_only (graph_name : string)
    (include_variants : value) (w : World) (app : AppContext) (e : exn) :
  serving w = Some app ->
  fst (get_graph_schema graph_name include_variants w) = Raise e ->
  e = TypeError \/ e = AttributeError.
Proof.
  intros Hup Hraise.
  destruct (check_graph_exists_world graph_name w app Hup) as [q1 [_ Hw1]].
  destruct (schema_query_total graph_name include_variants) as [q2 Hq2].
  unfold get_graph_schema, bind in Hraise.
  destruct (check_graph_exists graph_name w) as [[[|] | e'] w1] eqn:Hcheck;
    cbn [fst snd negb] in *.
  - unfold lift at 1 in Hraise. rewrite Hq2 in Hraise. subst w1.
    match type of Hraise with
    | context [dispatch q2 ?w0] =>
        rewrite (dispatch_runs w0 app q2 Hup) in Hraise
    end.
    unfold lift in Hraise. cbn [fst] in Hraise.
    match type of Hraise with
    | aggregate ?r = _ =>
        destruct (aggregate_cases r)
          as [Hc | [[? [? [? [? [_ [_ [_ Hc]]]]]]] | [Hc | Hc]]];
        rewrite Hc in Hraise
    end; try discriminate; injection Hraise as <-; auto.
  - discriminate.
  - left. rewrite check_graph_exists_probe in Hcheck.
    destruct (probe_runs graph_name w app Hup) as [r [w' Hprobe]].
    rewrite Hprobe in Hcheck.
    destruct (py_in "errors" r) as [found | e''] eqn:Hin; [discriminate |].
    apply py_in_raises in Hin. congruence.
Qed.

Lemma get_graph_schema_raises_only_witness :
  TypeError = TypeError \/ TypeError = AttributeError.
Proof.
  exact (get_graph_schema_raises_only "g" (PyBool false)
           (up [Decoded graph_found; Decoded mixed_response])
           {| graphql_client := the_client |} TypeError eq_refl eq_refl).
Defined.

Lemma collect_edges_skip_one (edge : value) (rest : list value)
    (acc : list key) :
  skipped edge ->
  collect_edges (edge :: rest) acc = collect_edges rest acc.
Proof.
  intros [d [-> [Hnone | [p [Hp Hv]]]]]; cbn [collect_edges py_in rbind];
    unfold dict_has.
  - now rewrite Hnone.
  - rewrite Hp. cbn [py_getitem rbind]. rewrite Hp. cbn [py_in rbind].
    unfold dict_has. now rewrite Hv.
Qed.

(** X15: the loop over the edges passes over an edge without
    [properties.values], wherever it stands in the list: the labels
    collected are those of the other edges. *)
Theorem collect_edges_skips (edge : value) (before after : list value)
    (acc : list key) :
  skipped edge ->
  collect_edges (before ++ edge :: after) acc =
  collect_edges (before ++ after) acc.
Proof.
  intros Hskip. revert acc.
  induction before as [| e0 before IH]; intros acc.
  - now apply collect_edges_skip_one.
  - cbn [app collect_edges].
    destruct (py_in "properties" e0) as [[|] | e]; cbn [rbind];
      [| apply IH | reflexivity].
    destruct (py_getitem e0 "properties") as [props | e]; cbn [rbind];
      [| reflexivity].
    destruct (py_in "values" props) as [[|] | e]; cbn [rbind];
      [| apply IH | reflexivity].
    destruct (py_getitem props "values") as [vals | e]; cbn [rbind];
      [| reflexivity].
    destruct (py_iter vals) as [vs | e]; cbn [rbind]; [| reflexivity].
    destruct (collect_values vs acc) as [acc' | e]; cbn [rbind];
      [apply IH | reflexivity].
Qed.

Lemma collect_edges_skips_witness :
  collect_edges
    (map edge_json two_edges ++ PyDict [("src", PyStr "a")] :: bare_edges) [] =
  collect_edges (map edge_json two_edges ++ bare_edges) [].
Proof.
  exact (collect_edges_skips (PyDict [("src", PyStr "a")])
           (map edge_json two_edges) bare_edges []
           (ex_intro _ [("src", PyStr "a")]
              (conj eq_refl (or_introl eq_refl)))).
Defined.




(** ** Integer labels *)














(** The example of the integers, run: [2, 9, 10]. *)
Example number_edges_relationships :
  aggregate (PyDict number_response) =
  Ok (PyDict
        [("data",
          PyDict
            [("graph",
              PyDict
                [("schema", PyDict [("nodes", PyList [])]);
                 ("relationships",
                  PyList [PyInt 2; PyInt 9; PyInt 10])])])]).
Proof.
  reflexivity.
Qed.

(** ** Labels of mixed kinds *)

Lemma py_hash_key_value (k : key) : py_hash (key_value k) = Ok k.
Proof.
  destruct k; reflexivity.
Qed.

Lemma collect_values_scalars (values seen : list key) :
  collect_values (map scalar_json values) seen = Ok (add_scalars seen values).
Proof.
  revert seen. induction values as [| k values IH]; intros seen.
  - reflexivity.
  - cbn [map collect_values]. unfold scalar_json at 1 2.
    cbn [py_in py_getitem dict_has dict_get rbind].
    change (String.eqb "value" "value") with true. cbn iota.
    cbn [rbind]. rewrite py_hash_key_value. cbn [rbind]. apply IH.
Qed.

Lemma collect_edges_scalars (edges : list ScalarBag) (seen : list key) :
  collect_edges (map scalar_edge_json edges) seen =
  Ok (add_scalar_edges seen edges).
Proof.
  revert seen. induction edges as [| e edges IH]; intros seen.
  - reflexivity.
  - cbn [map collect_edges]. unfold scalar_edge_json at 1 2 3.
    cbn [py_in py_getitem dict_has dict_get rbind].
    change (String.eqb "properties" "properties") with true. cbn iota.
    cbn [py_in py_getitem dict_has dict_get rbind].
    change (String.eqb "keys" "values") with false.
    change (String.eqb "values" "values") with true. cbn iota.
    cbn [py_iter rbind]. rewrite collect_values_scalars. cbn [rbind].
    apply IH.
Qed.

Lemma key_eqb_refl (k : key) : key_eqb k k = true.
Proof.
  destruct k as [| [|] | z | s]; cbn; auto using Z.eqb_refl, String.eqb_refl.
Qed.

(** A set holds, for everything added to it, an element equal to it. *)
Lemma set_add_holds (k x : key) (seen : list key) :
  (exists k', In k' seen /\ key_eqb k k' = true) \/ k = x ->
  exists k', In k' (set_add x seen) /\ key_eqb k k' = true.
Proof.
  unfold set_add. intros [[k' [Hin Heq]] | ->].
  - exists k'. split; [| assumption].
    destruct (existsb (key_eqb x) seen); [assumption |].
    apply in_app_iff. now left.
  - destruct (existsb (key_eqb x) seen) eqn:E.
    + apply existsb_exists in E. destruct E as [k' [Hin Heq]]. eauto.
    + exists x. split; [apply in_app_iff; right; now left | apply key_eqb_refl].
Qed.

Lemma add_scalars_holds (values seen : list key) (k : key) :
  (exists k', In k' seen /\ key_eqb k k' = true) \/ In k values ->
  exists k', In k' (add_scalars seen values) /\ key_eqb k k' = true.
Proof.
  unfold add_scalars. revert seen.
  induction values as [| x values IH]; intros seen H; simpl.
  - destruct H as [H | []]. exact H.
  - apply IH. destruct H as [H | [-> | H]].
    + left. apply set_add_holds. now left.
    + left. apply set_add_holds. now right.
    + now right.
Qed.

Lemma add_scalar_edges_holds (edges : list ScalarBag) (seen : list key)
    (k : key) :
  (exists k', In k' seen /\ key_eqb k k' = true) \/
  (exists e, In e edges /\ In k (scalar_values e)) ->
  exists k', In k' (add_scalar_edges seen edges) /\ key_eqb k k' = true.
Proof.
  unfold add_scalar_edges. revert seen.
  induction edges as [| e edges IH]; intros seen H; simpl.
  - destruct H as [H | [e [[] _]]]. exact H.
  - apply IH. destruct H as [H | [e' [[<- | He'] Hk]]].
    + left. apply add_scalars_holds. now left.
    + left. apply add_scalars_holds. now right.
    + right. eauto.
Qed.

Lemma key_eqb_kind (a b : key) :
  key_eqb a b = true -> is_str a = is_str b.
Proof.
  destruct a, b; cbn; congruence.
Qed.

(** [<] answers only for two strings or two numbers. *)
Lemma key_lt_kinds (a b : key) (below : bool) :
  key_lt a b = Ok below ->
  (is_str a = true /\ is_str b = true) \/
  (is_number a = true /\ is_number b = true).
Proof.
  destruct a, b; cbn; intros H; try discriminate; auto.
Qed.

Lemma insert_sorted_members (x : key) (l r : list key) :
  insert_sorted x l = Ok r -> forall t, In t r <-> t = x \/ In t l.
Proof.
  revert r. induction l as [| y l IH]; intros r H t.
  - injection H as <-. simpl. intuition congruence.
  - cbn [insert_sorted] in H.
    destruct (key_lt y x) as [[|] | e]; cbn [rbind] in H; [| | discriminate].
    + destruct (insert_sorted x l) as [r' | e]; cbn [rbind] in H;
        [| discriminate].
      injection H as <-. simpl. rewrite (IH r' eq_refl). tauto.
    + injection H as <-. simpl. intuition congruence.
Qed.

Lemma py_sorted_members (l r : list key) :
  py_sorted l = Ok r -> forall t, In t r <-> In t l.
Proof.
  revert r. induction l as [| x l IH]; intros r H t.
  - injection H as <-. tauto.
  - cbn [py_sorted] in H.
    destruct (py_sorted l) as [s |]; cbn [rbind] in H; [| discriminate].
    rewrite (insert_sorted_members _ _ _ H), (IH s eq_refl). simpl.
    intuition congruence.
Qed.

(** [sorted] returns only on a list of at most one element, or all of
    strings, or all of numbers. *)
Lemma py_sorted_uniform (l r : list key) :
  py_sorted l = Ok r -> (List.length l <= 1)%nat \/ uniform l.
Proof.
  revert r. induction l as [| x l IH]; intros r H.
  - left. simpl. lia.
  - cbn [py_sorted] in H.
    destruct (py_sorted l) as [s |] eqn:Hs; cbn [rbind] in H; [| discriminate].
    pose proof (py_sorted_members _ _ Hs) as Hmem.
    destruct s as [| y s].
    + destruct l as [| z l]; [left; simpl; lia |].
      exfalso. apply (proj2 (Hmem z)). now left.
    + cbn [insert_sorted] in H.
      destruct (key_lt y x) as [below |] eqn:Hlt; cbn [rbind] in H;
        [| discriminate].
      assert (Hy : In y l) by (apply Hmem; now left).
      right.
      destruct (IH _ eq_refl) as [Hshort | [Hall | Hall]].
      * destruct l as [| z [| z' l]]; simpl in Hshort; try lia; [destruct Hy |].
        destruct Hy as [-> | []].
        destruct (key_lt_kinds _ _ _ Hlt) as [[Ha Hb] | [Ha Hb]];
          [left | right]; intros k [<- | [<- | []]]; assumption.
      * left. intros k [<- | Hk]; [| now apply Hall].
        specialize (Hall y Hy).
        destruct (key_lt_kinds _ _ _ Hlt) as [[_ Hb] | [Ha _]];
          [assumption |].
        destruct y; discriminate.
      * right. intros k [<- | Hk]; [| now apply Hall].
        specialize (Hall y Hy).
        destruct (key_lt_kinds _ _ _ Hlt) as [[Ha _] | [_ Hb]];
          [| assumption].
        destruct y; discriminate.
Qed.

Lemma py_sorted_mixed (l : list key) (s : string) (k : key) :
  In (KStr s) l -> In k l -> is_str k = false ->
  py_sorted l = Raise TypeError.
Proof.
  intros Hs Hk Hkind.
  destruct (py_sorted l) as [r | e] eqn:Hsorted.
  - exfalso. destruct (py_sorted_uniform _ _ Hsorted) as [Hshort | [Hall | Hall]].
    + destruct l as [| a [| b l]]; simpl in Hshort; try lia; [destruct Hs |].
      destruct Hs as [-> | []]. destruct Hk as [<- | []]. discriminate.
    + specialize (Hall k Hk). congruence.
    + specialize (Hall _ Hs). discriminate.
  - now rewrite (py_sorted_raises _ _ Hsorted).
Qed.

(** X18: when the property values of the edges hold a string and also a value
    that is no string (a number, a boolean, [null]), in one edge or in two,
    the aggregation raises [TypeError]: [sorted] cannot order them. *)
Theorem aggregate_mixed_raises
    (top data graph edge_types : list (string * value))
    (edges : list ScalarBag) (s : string) (k : key) :
  dict_get "data" top = Some (PyDict data) ->
  dict_get "graph" data = Some (PyDict graph) ->
  dict_get "edgeTypes" graph = Some (PyDict edge_types) ->
  dict_get "list" edge_types = Some (PyList (map scalar_edge_json edges)) ->
  (exists e, In e edges /\ In (KStr s) (scalar_values e)) ->
  (exists e, In e edges /\ In k (scalar_values e)) ->
  is_str k = false ->
  aggregate (PyDict top) = Raise TypeError.
Proof.
  intros Hdata Hgraph Htypes Hlist Hs Hk Hkind.
  unfold aggregate. rewrite Hdata.
  rewrite (dict_get_nonempty _ _ _ Hgraph).
  cbn [py_get]. rewrite Hgraph. cbn [rbind].
  rewrite (dict_get_nonempty _ _ _ Htypes).
  cbn [py_in]. unfold dict_has at 1. rewrite Htypes. cbn [rbind].
  cbn [py_getitem]. rewrite Htypes. cbn [rbind py_get]. rewrite Hlist.
  cbn [rbind py_iter]. rewrite collect_edges_scalars. cbn [rbind].
  destruct (add_scalar_edges_holds edges [] (KStr s)) as [s' [Hs' Heq]];
    [now right |].
  destruct (add_scalar_edges_holds edges [] k) as [k' [Hk' Heq']];
    [now right |].
  destruct s' as [| b | z | s']; cbn in Heq; try discriminate.
  apply String.eqb_eq in Heq. subst s'.
  rewrite (py_sorted_mixed _ _ k' Hs' Hk'); [reflexivity |].
  now rewrite <- (key_eqb_kind _ _ Heq').
Qed.

Lemma aggregate_mixed_raises_witness :
  aggregate mixed_response = Raise TypeError.
Proof.
  exact (aggregate_mixed_raises
           [("data",
             PyDict [("graph",
                      PyDict [("edgeTypes",
                               PyDict [("list", PyList [mixed_edge])])])])]
           [("graph",
             PyDict [("edgeTypes", PyDict [("list", PyList [mixed_edge])])])]
           [("edgeTypes", PyDict [("list", PyList [mixed_edge])])]
           [("list", PyList [mixed_edge])]
           [mixed_bag] "knows" (KInt 3)
           eq_refl eq_refl eq_refl eq_refl
           (ex_intro _ mixed_bag (conj (or_introl eq_refl)
                                       (or_intror (or_introl eq_refl))))
           (ex_intro _ mixed_bag (conj (or_introl eq_refl)
                                       (or_introl eq_refl)))
           eq_refl).
Defined.
